(** * mapproxy.cache.s3: the S3 tile cache backend

    A shallow embedding of [src/mapproxy/cache/s3.py]: the module-level
    [connect] helper, the [S3Cache] constructor and the tile operations
    [is_cached], [load_tile], [remove_tile], [store_tile] and
    [load_tile_metadata].

    Python exceptions are an explicit outcome, mutable objects (the tile, the
    remote bucket) live in an explicit state that survives a raised
    exception, and the boto client library is a small model of an S3
    service: a map of objects, a script of injected failures and a log of
    the requests sent. *)

From Stdlib Require Import ZArith QArith String List.
From stdpp Require Import base gmap strings list.

Open Scope string_scope.

(** ** Exceptions and outcomes *)

(** The exception classes the module names or can meet. [S3ResponseError]
    carries boto's [error_code] attribute and the text [str(e)] renders;
    [OtherException] stands for every class the module never names (socket
    errors, [NoAuthHandlerFound], ...). *)
Inductive Exception : Type :=
| ImportError (msg : string)
| AttributeError (msg : string)
| TypeError (msg : string)
| ProfileNotFoundError (msg : string)
| S3ResponseError (error_code : string) (text : string)
| S3ConnectionError (msg : string)
| OtherException (cls : string) (msg : string).

(** ['%s' % e] *)
Definition str (e : Exception) : string :=
  match e with
  | ImportError msg | AttributeError msg | TypeError msg
  | ProfileNotFoundError msg | S3ConnectionError msg => msg
  | S3ResponseError _ text => text
  | OtherException _ msg => msg
  end.

Definition is_S3ResponseError (e : Exception) : bool :=
  match e with S3ResponseError _ _ => true | _ => false end.

Definition is_S3ConnectionError (e : Exception) : bool :=
  match e with S3ConnectionError _ => true | _ => false end.

Inductive Outcome (A : Type) : Type :=
| Return (a : A)
| Raise (e : Exception).
Arguments Return {A} a.
Arguments Raise {A} e.

(** ** A state monad with exceptions

    A computation maps the state before to an outcome and the state after.
    The state after a [Raise] is the state at the raising point: Python does
    not roll mutations back. *)
Definition M (St A : Type) : Type := St -> Outcome A * St.

Definition ret {St A} (a : A) : M St A := fun s => (Return a, s).

Definition raise {St A} (e : Exception) : M St A := fun s => (Raise e, s).

Definition bind {St A B} (m : M St A) (k : A -> M St B) : M St B :=
  fun s =>
    match m s with
    | (Return a, s') => k a s'
    | (Raise e, s') => (Raise e, s')
    end.

(** [try: m except ... as e: h e] *)
Definition try_except {St A} (m : M St A) (h : Exception -> M St A) : M St A :=
  fun s =>
    match m s with
    | (Return a, s') => (Return a, s')
    | (Raise e, s') => h e s'
    end.

Definition get {St} : M St St := fun s => (Return s, s).

Definition modify {St} (f : St -> St) : M St unit := fun s => (Return tt, f s).

Notation "x <- m ;; k" := (bind m (fun x => k))
  (at level 20, m at level 99, k at level 200, only parsing).
Notation "m ;; k" := (bind m (fun _ => k))
  (at level 100, k at level 200, only parsing, right associativity).

(** ** The remote store *)

Definition bytes : Type := list Byte.byte.

Record S3Object : Type := mkS3Object {
  body : bytes;
  object_content_type : option string
}.

(** The requests a bucket or key handle sends. *)
Inductive Request : Type :=
| HEAD_BUCKET (bucket_name : string)
| HEAD (bucket_name key_name : string)
| GET (bucket_name key_name : string)
| PUT (bucket_name key_name : string) (content_type : option string) (data : bytes)
| DELETE (bucket_name key_name : string).

(** The S3 service: the buckets that exist, the objects by (bucket, key),
    the failures the service or the network will answer the coming requests
    with ([None]: the request is served normally; an exhausted script serves
    everything normally), and the requests received, newest first. *)
Record S3 : Type := mkS3 {
  buckets : gset string;
  objects : gmap (string * string) S3Object;
  faults : list (option Exception);
  log : list Request
}.

(** What the process sees outside the tile: whether [import boto] succeeded
    (the module global [boto] is [None] otherwise), the credential profiles
    of the boto configuration, whether ambient default credentials are
    present, and the remote service. *)
Record Env : Type := mkEnv {
  boto : bool;
  profiles : gset string;
  ambient_credentials : bool;
  s3 : S3
}.

Definition set_s3 (f : S3 -> S3) (env : Env) : Env :=
  mkEnv (boto env) (profiles env) (ambient_credentials env) (f (s3 env)).

Definition set_objects
    (f : gmap (string * string) S3Object -> gmap (string * string) S3Object)
    (s : S3) : S3 :=
  mkS3 (buckets s) (f (objects s)) (faults s) (log s).

(** The failure, if any, that answers the next request. *)
Definition next_fault (s : S3) : option Exception :=
  match faults s with
  | f :: _ => f
  | [] => None
  end.

(** The service after it received request [q]: the request is logged and
    the head of the failure script is used up. *)
Definition received (q : Request) (s : S3) : S3 :=
  mkS3 (buckets s) (objects s) (tail (faults s)) (q :: log s).

(** Sending [q]: the head of the failure script decides whether the request
    is served or answered by an error. *)
Definition send (q : Request) : M Env unit :=
  fun env =>
    match next_fault (s3 env) with
    | None => (Return tt, set_s3 (received q) env)
    | Some e => (Raise e, set_s3 (received q) env)
    end.

(** ** The boto client *)

Record Connection : Type := mkConnection {
  conn_profile_name : option string;
  conn_host : string
}.

Record Bucket : Type := mkBucket {
  connection : Connection;
  bucket_name : string
}.

(** [boto.s3.key.Key]: a handle on one object of a bucket. [name] is the
    attribute the source assigns through [k.key = ...]. *)
Record Key : Type := mkKey {
  key_bucket : Bucket;
  name : option string;
  content_type : option string
}.

Definition key_name (k : Key) : string := default "" (name k).

Definition set_key (k : Key) (location : string) : Key :=
  mkKey (key_bucket k) (Some location) (content_type k).

Definition set_content_type (k : Key) (ct : string) : Key :=
  mkKey (key_bucket k) (name k) (Some ct).

Module Boto.

(** [boto.connect_s3(profile_name=..., host=...)]: a named profile must be
    in the configuration, no profile needs ambient credentials. No request
    is sent yet. *)
Definition connect_s3 (profile_name : option string) (host : string)
  : M Env Connection :=
  env <- get ;;
  match profile_name with
  | Some p =>
      if bool_decide (p ∈ profiles env)
      then ret (mkConnection profile_name host)
      else raise (ProfileNotFoundError ("Profile " +:+ p +:+ " not found"))
  | None =>
      if ambient_credentials env
      then ret (mkConnection profile_name host)
      else raise (OtherException "NoAuthHandlerFound"
                    "No handler was ready to authenticate.")
  end.

(** [conn.get_bucket(bucket_name)]: a HEAD on the bucket; a missing bucket
    is answered by a response error with code [NoSuchBucket]. *)
Definition get_bucket (conn : Connection) (bucket_name : string)
  : M Env Bucket :=
  send (HEAD_BUCKET bucket_name) ;;
  env <- get ;;
  if bool_decide (bucket_name ∈ buckets (s3 env))
  then ret (mkBucket conn bucket_name)
  else raise (S3ResponseError "NoSuchBucket"
                "S3ResponseError: 404 Not Found").

(** [Key.DefaultContentType]: the content type every key handle is created
    with, and that an upload carries unless the handle is given another. *)
Definition DefaultContentType : string := "application/octet-stream".

(** [boto.s3.key.Key(bucket)]: an attribute lookup on the module global
    [boto], then a fresh handle with no name and the default content
    type. *)
Definition new_Key (bucket : Bucket) : M Env Key :=
  env <- get ;;
  if boto env
  then ret (mkKey bucket None (Some DefaultContentType))
  else raise (AttributeError "'NoneType' object has no attribute 's3'").

(** [k.exists()]: a HEAD on the object; absence is the answer [False], not
    an error. *)
Definition exists_ (k : Key) : M Env bool :=
  send (HEAD (bucket_name (key_bucket k)) (key_name k)) ;;
  env <- get ;;
  ret (bool_decide
         (is_Some (objects (s3 env) !! (bucket_name (key_bucket k), key_name k)))).

(** [k.get_contents_to_file(fp)]: a GET on the object, whose body is
    written to [fp]; the result is the content of [fp] afterwards. A
    missing object is answered by a response error with code [NoSuchKey]. *)
Definition get_contents_to_file (k : Key) (fp : bytes) : M Env bytes :=
  send (GET (bucket_name (key_bucket k)) (key_name k)) ;;
  env <- get ;;
  match objects (s3 env) !! (bucket_name (key_bucket k), key_name k) with
  | Some o => ret (fp ++ body o)%list
  | None => raise (S3ResponseError "NoSuchKey"
                     "S3ResponseError: 404 Not Found")
  end.

(** [k.delete()] *)
Definition delete (k : Key) : M Env unit :=
  send (DELETE (bucket_name (key_bucket k)) (key_name k)) ;;
  modify (set_s3 (set_objects
    (base.delete (bucket_name (key_bucket k), key_name k)))).

(** [k.set_contents_from_file(fp)]: a PUT of the content of [fp] with the
    handle's content type. *)
Definition set_contents_from_file (k : Key) (fp : bytes) : M Env unit :=
  send (PUT (bucket_name (key_bucket k)) (key_name k) (content_type k) fp) ;;
  modify (set_s3 (set_objects
    (insert (bucket_name (key_bucket k), key_name k)
            (mkS3Object fp (content_type k))))).

(** [k.close()] sends nothing. *)
Definition close (k : Key) : M Env unit := ret tt.

End Boto.

(** ** connect *)

Definition S3_HOST : string := "s3.eu-central-1.amazonaws.com".

(** [connect(profile_name=None)] *)
Definition connect (profile_name : option string) : M Env Connection :=
  env <- get ;;
  if negb (boto env)
  then raise (ImportError "S3 Cache requires 'boto' package.")
  else
    try_except (Boto.connect_s3 profile_name S3_HOST)
      (fun e =>
         match e with
         | ProfileNotFoundError _ =>
             raise (S3ConnectionError ("Profile no found " +:+ str e))
         | _ =>
             raise (S3ConnectionError ("Error during connection " +:+ str e))
         end).

(** ** Tiles *)

Definition Coord : Type := (Z * Z * Z)%type.

(** Modelled from the spec: [mapproxy.image.ImageSource] is not under src/;
    the spec's [wrapAsImageSource(bytes) -> ImageSource] wraps a buffer and
    keeps its content. *)
Record ImageSource : Type := mkImageSource {
  source_buf : bytes
}.

(** Modelled from the spec: the tile class is not under src/. A tile is
    identified by a coordinate triple, carries a mutable source slot and an
    is-stored flag; [location] is the attribute in which the file-cache base
    keeps the storage key it derived for the tile, [size] and [timestamp]
    are the two attributes [load_tile_metadata] assigns. *)
Record Tile : Type := mkTile {
  coord : option Coord;
  source : option ImageSource;
  location : option string;
  stored : bool;
  size : option Z;
  timestamp : option Z
}.

(** Modelled from the spec: [Tile.is_missing] is not under src/. A tile that
    already has a source is not missing, and a tile with no coordinate
    short-circuits every operation before any remote call ([load_tile]'s
    docstring: nothing happens if the coordinate is [None]); so a tile is
    missing when it has a coordinate and no source. *)
Definition is_missing (t : Tile) : bool :=
  match coord t, source t with
  | Some _, None => true
  | _, _ => false
  end.

Definition set_source (img : ImageSource) (t : Tile) : Tile :=
  mkTile (coord t) (Some img) (location t) (stored t) (size t) (timestamp t).

Definition set_location (key : string) (t : Tile) : Tile :=
  mkTile (coord t) (source t) (Some key) (stored t) (size t) (timestamp t).

Definition set_stored (b : bool) (t : Tile) : Tile :=
  mkTile (coord t) (source t) (location t) b (size t) (timestamp t).

Definition set_metadata (ts sz : Z) (t : Tile) : Tile :=
  mkTile (coord t) (source t) (location t) (stored t) (Some sz) (Some ts).

(** The state of one method call: the tile object passed as the [tile]
    argument, and everything outside it. *)
Record State : Type := mkState {
  tile : Tile;
  env : Env
}.

Definition liftE {A} (m : M Env A) : M State A :=
  fun st =>
    match m (env st) with
    | (o, env') => (o, mkState (tile st) env')
    end.

Definition get_tile : M State Tile := fun st => (Return (tile st), st).

Definition modify_tile (f : Tile -> Tile) : M State unit :=
  fun st => (Return tt, mkState (f (tile st)) (env st)).

(** Modelled from the spec: [mapproxy.cache.base.tile_buffer] is not under
    src/. It is the scoped buffer accessor of [store]: it yields the image
    bytes of the tile's source to the body of the [with] block. The spec's
    [store] marks the tile stored after a successful upload and
    [store_tile] itself never assigns the flag, so the marking is the exit
    of the scope, reached only when the body returns; a body that raises
    leaves the scope by the exception. What else the accessor records on the
    tile at that exit ([size], [timestamp]) is left out: no statement below
    speaks of these two fields after a store. *)
Definition with_tile_buffer {A} (body : bytes -> M State A) : M State A :=
  t <- get_tile ;;
  match source t with
  | None => raise (AttributeError "'NoneType' object has no attribute 'as_buffer'")
  | Some img =>
      a <- body (source_buf img) ;;
      modify_tile (set_stored true) ;;
      ret a
  end.

(** Modelled from the spec: [mapproxy.util.py.reraise_exception] is not
    under src/; it raises the new exception (with the old traceback). *)
Definition reraise_exception {St A} (new_exc : Exception) : M St A :=
  raise new_exc.

(** ** S3Cache *)

(** The instance: [self.bucket] and the attributes of the file-cache base. *)
Record S3Cache : Type := mkS3Cache {
  bucket : Bucket;
  cache_dir : string;
  file_ext : string;
  directory_layout : string;
  lock_timeout : Q;
  link_single_color_images : bool
}.

(** Modelled from the spec: [FileCache.__init__] is not under src/; the base
    initialisation keeps the configuration it is given. What the base does
    with a directory layout it does not know is not modelled: nothing below
    states that construction succeeds for a layout other than the default
    ["tms"]. *)
Definition FileCache_init (self_bucket : Bucket) (cache_dir file_ext : string)
    (directory_layout : string) (lock_timeout : Q)
    (link_single_color_images : bool) : S3Cache :=
  mkS3Cache self_bucket cache_dir file_ext directory_layout lock_timeout
            link_single_color_images.

(** The defaults of the constructor's keyword arguments. *)
Definition default_directory_layout : string := "tms".
Definition default_lock_timeout : Q := 60.
Definition default_bucket_name : string := "mapproxy".

(** [S3Cache.__init__(cache_dir, file_ext, lock_dir, directory_layout,
    lock_timeout, bucket_name, profile_name)] *)
Definition S3Cache_init (cache_dir file_ext : string) (lock_dir : option string)
    (directory_layout : string) (lock_timeout : Q) (bucket_name : string)
    (profile_name : option string) : M Env S3Cache :=
  conn <- connect None ;;
  self_bucket <-
    try_except (Boto.get_bucket conn bucket_name)
      (fun e =>
         match e with
         | S3ResponseError error_code _ =>
             if bool_decide (error_code = "NoSuchBucket")
             then raise (S3ConnectionError ("No such bucket: " +:+ bucket_name))
             else if bool_decide (error_code = "AccessDenied")
             then raise (S3ConnectionError "Access denied. Check your credentials")
             else reraise_exception
                    (S3ConnectionError ("Unknown error: " +:+ str e))
         | _ => raise e
         end) ;;
  ret (FileCache_init self_bucket cache_dir file_ext directory_layout
         lock_timeout false).

Section Operations.

(** Modelled from the spec: the key locator of the file-cache base is not
    under src/; it is a pure function of the coordinate, the layout scheme
    and the file extension. *)
Variable locate : Coord -> string -> string -> string.

(** Modelled from the spec: [FileCache.tile_location], the inherited
    method behind [self.tile_location(tile)], is not under src/. Its result
    is the locator's key for the tile's coordinate, and it keeps that key in
    the tile's [location] attribute, where a later call finds it. A tile
    carries no key or the key this instance derived for it (the same
    coordinate always yields the same key), so the key found and the key
    derived are the same. Unpacking the coordinate of a tile that has none
    is a [TypeError]. *)
Definition tile_location (self : S3Cache) : M State string :=
  t <- get_tile ;;
  match coord t with
  | Some c =>
      let key := locate c (directory_layout self) (file_ext self) in
      modify_tile (set_location key) ;;
      ret key
  | None => raise (TypeError "'NoneType' object is not iterable")
  end.

(** [load_tile_metadata(self, tile)] *)
Definition load_tile_metadata (self : S3Cache) : M State unit :=
  modify_tile (set_metadata 0 0).

(** [is_cached(self, tile)] *)
Definition is_cached (self : S3Cache) : M State bool :=
  t <- get_tile ;;
  if is_missing t then
    location <- tile_location self ;;
    k <- liftE (Boto.new_Key (bucket self)) ;;
    let k := set_key k location in
    hit <- liftE (Boto.exists_ k) ;;
    if hit then ret true else ret false
  else ret true.

(** [load_tile(self, tile, with_metadata=False)]. The [try] block either
    returns [True] or is left through the handler, which passes on every
    [S3ResponseError] and on nothing else. *)
Definition load_tile (self : S3Cache) (with_metadata : bool) : M State bool :=
  t <- get_tile ;;
  if negb (is_missing t) then ret true
  else
    location <- tile_location self ;;
    let tile_data : bytes := [] in
    k <- liftE (Boto.new_Key (bucket self)) ;;
    let k := set_key k location in
    returned <-
      try_except
        (tile_data <- liftE (Boto.get_contents_to_file k tile_data) ;;
         modify_tile (set_source (mkImageSource tile_data)) ;;
         liftE (Boto.close k) ;;
         ret (Some true))
        (fun e => if is_S3ResponseError e then ret None else raise e) ;;
    match returned with
    | Some b => ret b
    | None => liftE (Boto.close k) ;; ret false
    end.

(** [remove_tile(self, tile)] *)
Definition remove_tile (self : S3Cache) : M State unit :=
  location <- tile_location self ;;
  k <- liftE (Boto.new_Key (bucket self)) ;;
  let k := set_key k location in
  present <- liftE (Boto.exists_ k) ;;
  (if present then liftE (Boto.delete k) else ret tt) ;;
  liftE (Boto.close k).

(** [store_tile(self, tile)] *)
Definition store_tile (self : S3Cache) : M State unit :=
  t <- get_tile ;;
  if stored t then ret tt
  else
    location <- tile_location self ;;
    k <- liftE (Boto.new_Key (bucket self)) ;;
    let k := if bool_decide (file_ext self ∈ ["jpeg"; "png"])
             then set_content_type k ("image/" +:+ file_ext self)
             else k in
    let k := set_key k location in
    with_tile_buffer (fun buf => liftE (Boto.set_contents_from_file k buf)) ;;
    liftE (Boto.close k).

End Operations.

(** ** A concrete scenario

    Bucket ["maps"], extension ["png"], coordinate (x=3, y=4, z=2), on a
    service holding the bucket and no object. *)
Module Scenario.

(** A locator in the style of the TMS layout. *)
Definition locate (c : Coord) (layout ext : string) : string :=
  match c with
  | (x, y, z) =>
      layout +:+ "/" +:+ pretty.pretty z +:+ "/" +:+ pretty.pretty x +:+ "/"
             +:+ pretty.pretty y +:+ "." +:+ ext
  end.

Definition conn : Connection := mkConnection None S3_HOST.

Definition cache : S3Cache :=
  mkS3Cache (mkBucket conn "maps") "/var/cache/tiles" "png" "tms" 60 false.


Definition PNG_HEADER : bytes :=
  [Byte.x89; Byte.x50; Byte.x4e; Byte.x47; Byte.x0d; Byte.x0a; Byte.x1a; Byte.x0a].

Definition tiledata : bytes :=
  (PNG_HEADER ++ [Byte.x74; Byte.x69; Byte.x6c; Byte.x65; Byte.x64; Byte.x61;
                  Byte.x74; Byte.x61])%list.

Definition c342 : Coord := (3, 4, 2)%Z.

(** A fresh tile, and the same tile carrying the rendered image. *)
Definition fresh_tile : Tile := mkTile (Some c342) None None false None None.
Definition image_tile : Tile :=
  mkTile (Some c342) (Some (mkImageSource tiledata)) None false None None.

(** The image tile once it has been marked stored. *)
Definition stored_tile : Tile := set_stored true image_tile.

(** The service with the given failure script. *)
Definition service (script : list (option Exception)) : S3 :=
  mkS3 {["maps"]} ∅ script [].

Definition world (script : list (option Exception)) : Env :=
  mkEnv true {["prod"]} true (service script).

(** The same process when [import boto] failed. *)
Definition world_without_boto : Env :=
  mkEnv false {["prod"]} true (service []).

(** The same process with no ambient default credentials. *)
Definition world_without_credentials : Env :=
  mkEnv true {["prod"]} false (service []).

(** The service once it holds the image of the scenario's tile. *)
Definition stocked_service (script : list (option Exception)) : S3 :=
  mkS3 {["maps"]}
       {[ ("maps", "tms/2/3/4.png") := mkS3Object tiledata (Some "image/png") ]}
       script [].

Definition stocked_world (script : list (option Exception)) : Env :=
  mkEnv true {["prod"]} true (stocked_service script).

Definition access_denied : Exception :=
  S3ResponseError "AccessDenied" "S3ResponseError: 403 Forbidden".

Definition timed_out : Exception :=
  OtherException "socket.timeout" "timed out".

End Scenario.


(** One step of symbolic execution: the monad's plumbing and the
    projections of the state are computed away, the requests are kept. *)
Ltac run :=
  cbv [load_tile store_tile remove_tile is_cached load_tile_metadata
       tile_location with_tile_buffer liftE bind ret raise try_except
       reraise_exception get get_tile modify modify_tile Boto.close
       negb set_key set_content_type];
  cbn [tile env fst snd key_bucket name content_type
       coord source stored set_location].

(** * Properties *)

(** ** The remote store and the client *)

Lemma send_served (q : Request) (w : Env) :
  next_fault (s3 w) = None ->
  send q w = (Return tt, set_s3 (received q) w).
Proof. intros H. unfold send. now rewrite H. Qed.

Lemma send_failed (q : Request) (w : Env) (e : Exception) :
  next_fault (s3 w) = Some e ->
  send q w = (Raise e, set_s3 (received q) w).
Proof. intros H. unfold send. now rewrite H. Qed.

(** An exhausted failure script stays exhausted. *)
Lemma received_exhausted (q : Request) (s : S3) :
  faults s = [] -> faults (received q s) = [].
Proof. intros H. unfold received. simpl. now rewrite H. Qed.

Lemma exhausted_next_fault (s : S3) : faults s = [] -> next_fault s = None.
Proof. intros H. unfold next_fault. now rewrite H. Qed.

Lemma new_Key_loaded (b : Bucket) (w : Env) :
  boto w = true ->
  Boto.new_Key b w = (Return (mkKey b None (Some Boto.DefaultContentType)), w).
Proof.
  intros H. unfold Boto.new_Key, bind, get, ret. now rewrite H.
Qed.

Lemma exists_served (k : Key) (w : Env) :
  next_fault (s3 w) = None ->
  Boto.exists_ k w =
    (Return (bool_decide (is_Some
       (objects (s3 w) !! (bucket_name (key_bucket k), key_name k)))),
     set_s3 (received (HEAD (bucket_name (key_bucket k)) (key_name k))) w).
Proof.
  intros H. unfold Boto.exists_, bind. now rewrite (send_served _ _ H).
Qed.

Lemma get_contents_failed (k : Key) (fp : bytes) (w : Env) (e : Exception) :
  next_fault (s3 w) = Some e ->
  Boto.get_contents_to_file k fp w =
    (Raise e, set_s3 (received (GET (bucket_name (key_bucket k)) (key_name k))) w).
Proof.
  intros H. unfold Boto.get_contents_to_file, bind.
  now rewrite (send_failed _ _ _ H).
Qed.

Lemma get_contents_served (k : Key) (fp : bytes) (w : Env) :
  next_fault (s3 w) = None ->
  Boto.get_contents_to_file k fp w =
    (match objects (s3 w) !! (bucket_name (key_bucket k), key_name k) with
     | Some o => Return (fp ++ body o)%list
     | None => Raise (S3ResponseError "NoSuchKey" "S3ResponseError: 404 Not Found")
     end,
     set_s3 (received (GET (bucket_name (key_bucket k)) (key_name k))) w).
Proof.
  intros H. unfold Boto.get_contents_to_file, bind.
  rewrite (send_served _ _ H). unfold get. simpl.
  now destruct (objects (s3 w) !! _).
Qed.

Lemma set_contents_served (k : Key) (fp : bytes) (w : Env) :
  next_fault (s3 w) = None ->
  Boto.set_contents_from_file k fp w =
    (Return tt,
     set_s3 (set_objects (insert (bucket_name (key_bucket k), key_name k)
                                 (mkS3Object fp (content_type k))))
       (set_s3 (received (PUT (bucket_name (key_bucket k)) (key_name k)
                              (content_type k) fp)) w)).
Proof.
  intros H. unfold Boto.set_contents_from_file, bind.
  now rewrite (send_served _ _ H).
Qed.

Lemma set_contents_failed (k : Key) (fp : bytes) (w : Env) (e : Exception) :
  next_fault (s3 w) = Some e ->
  Boto.set_contents_from_file k fp w =
    (Raise e,
     set_s3 (received (PUT (bucket_name (key_bucket k)) (key_name k)
                           (content_type k) fp)) w).
Proof.
  intros H. unfold Boto.set_contents_from_file, bind.
  now rewrite (send_failed _ _ _ H).
Qed.

Lemma delete_served (k : Key) (w : Env) :
  next_fault (s3 w) = None ->
  Boto.delete k w =
    (Return tt,
     set_s3 (set_objects (base.delete (bucket_name (key_bucket k), key_name k)))
       (set_s3 (received (DELETE (bucket_name (key_bucket k)) (key_name k))) w)).
Proof.
  intros H. unfold Boto.delete, bind. now rewrite (send_served _ _ H).
Qed.

Lemma is_missing_true (t : Tile) :
  is_missing t = true <-> (exists c, coord t = Some c) /\ source t = None.
Proof.
  unfold is_missing. destruct (coord t) as [c|], (source t) as [i|]; split;
    try discriminate; try (intros [[c' Hc] Hs]; discriminate); eauto.
Qed.

Section OperationProperties.

Variable locate : Coord -> string -> string -> string.

(** *** load_tile *)

Lemma load_tile_not_missing self wm t w :
  is_missing t = false ->
  load_tile locate self wm (mkState t w) = (Return true, mkState t w).
Proof.
  intros H. run. now rewrite H.
Qed.

Lemma load_tile_no_boto self wm t w :
  is_missing t = true -> boto w = false ->
  exists e st', load_tile locate self wm (mkState t w) = (Raise e, st').
Proof.
  intros Hm Hb. apply is_missing_true in Hm as Hm'. destruct Hm' as [[c Hc] _].
  run. rewrite Hm. run. rewrite Hc. unfold Boto.new_Key. run.
  rewrite Hb. eauto.
Qed.

(** With the client library loaded, [load_tile] on a missing tile is one
    fetch: its content becomes the source, a response error becomes
    [False], and any other exception goes on to the caller. *)
Lemma load_tile_missing self wm t w c :
  coord t = Some c -> source t = None -> boto w = true ->
  load_tile locate self wm (mkState t w) =
    match Boto.get_contents_to_file (mkKey (bucket self)
       (Some (locate c (directory_layout self) (file_ext self)))
       (Some Boto.DefaultContentType)) [] w with
    | (Return data, w') =>
        (Return true,
         mkState (set_source (mkImageSource data)
                    (set_location
                       (locate c (directory_layout self) (file_ext self)) t))
                 w')
    | (Raise e, w') =>
        if is_S3ResponseError e
        then (Return false,
              mkState (set_location
                         (locate c (directory_layout self) (file_ext self)) t)
                      w')
        else (Raise e,
              mkState (set_location
                         (locate c (directory_layout self) (file_ext self)) t)
                      w')
    end.
Proof.
  intros Hc Hs Hb.
  assert (Hm : is_missing t = true) by (apply is_missing_true; eauto).
  run. rewrite Hm. run. rewrite Hc, (new_Key_loaded _ _ Hb). run.
  destruct (Boto.get_contents_to_file (mkKey (bucket self)
       (Some (locate c (directory_layout self) (file_ext self)))
       (Some Boto.DefaultContentType)) [] w) as [[data|e] w'];
    [reflexivity|].
  destruct (is_S3ResponseError e); reflexivity.
Qed.

(** Every response error that answers the fetch is turned into [False],
    whatever its error code. *)
Lemma load_tile_response_error self wm t w c code text :
  coord t = Some c -> source t = None -> boto w = true ->
  next_fault (s3 w) = Some (S3ResponseError code text) ->
  fst (load_tile locate self wm (mkState t w)) = Return false.
Proof.
  intros Hc Hs Hb Hf. rewrite (load_tile_missing _ _ _ _ _ Hc Hs Hb).
  now rewrite (get_contents_failed _ _ _ _ Hf).
Qed.

(** A failure of the fetch that is not a response error goes on to the
    caller. *)
Lemma load_tile_other_failure self wm t w c e :
  coord t = Some c -> source t = None -> boto w = true ->
  next_fault (s3 w) = Some e -> is_S3ResponseError e = false ->
  fst (load_tile locate self wm (mkState t w)) = Raise e.
Proof.
  intros Hc Hs Hb Hf He. rewrite (load_tile_missing _ _ _ _ _ Hc Hs Hb).
  rewrite (get_contents_failed _ _ _ _ Hf). now rewrite He.
Qed.

(** A served fetch of a key the store does not hold is the miss. *)
Lemma load_tile_no_such_key self wm t w c :
  coord t = Some c -> source t = None -> boto w = true ->
  next_fault (s3 w) = None ->
  objects (s3 w)
    !! (bucket_name (bucket self),
        locate c (directory_layout self) (file_ext self)) = None ->
  fst (load_tile locate self wm (mkState t w)) = Return false.
Proof.
  intros Hc Hs Hb Hf Ho. rewrite (load_tile_missing _ _ _ _ _ Hc Hs Hb).
  rewrite (get_contents_served _ _ _ Hf). simpl.
  unfold key_name. simpl. now rewrite Ho.
Qed.

(** A served fetch of a key the store holds fills the source. *)
Lemma load_tile_hit self wm t w c o :
  coord t = Some c -> source t = None -> boto w = true ->
  next_fault (s3 w) = None ->
  objects (s3 w)
    !! (bucket_name (bucket self),
        locate c (directory_layout self) (file_ext self)) = Some o ->
  let r := load_tile locate self wm (mkState t w) in
  fst r = Return true /\
  source (tile (snd r)) = Some (mkImageSource (body o)).
Proof.
  intros Hc Hs Hb Hf Ho. simpl. rewrite (load_tile_missing _ _ _ _ _ Hc Hs Hb).
  rewrite (get_contents_served _ _ _ Hf). simpl.
  unfold key_name. simpl. rewrite Ho. simpl. auto.
Qed.

(** C9 as amended: whenever [load_tile] returns [False], the tile holds
    the same values as before the call in its source slot and in every other
    field except [location], which holds the key derived for the tile. *)
Theorem load_tile_false_changes_only_location self wm st st' :
  load_tile locate self wm st = (Return false, st') ->
  exists c,
    coord (tile st) = Some c /\
    tile st' =
      set_location (locate c (directory_layout self) (file_ext self)) (tile st).
Proof.
  destruct st as [t w]. cbn [tile]. intros H.
  destruct (is_missing t) eqn:Hm.
  - apply is_missing_true in Hm as Hm'. destruct Hm' as [[c Hc] Hs].
    exists c. split; [exact Hc|].
    destruct (boto w) eqn:Hb.
    + rewrite (load_tile_missing _ _ _ _ _ Hc Hs Hb) in H.
      destruct (Boto.get_contents_to_file _ [] w) as [[data|e] w'];
        [discriminate|].
      destruct (is_S3ResponseError e); [|discriminate].
      now inversion H.
    + destruct (load_tile_no_boto self wm _ _ Hm Hb) as (e & st0 & He).
      rewrite He in H. discriminate.
  - rewrite (load_tile_not_missing _ _ _ _ Hm) in H. discriminate.
Qed.

(** *** is_cached *)

(** C6: a tile that is not missing is cached without any remote call (the
    whole state, request log included, is as before); for a missing tile
    whose existence check is served, the answer is [True] exactly when the
    store holds an object under the key derived from the coordinate, and a
    miss is the plain answer [False]. *)
Theorem is_cached_fast_path_and_lookup self t w :
  (is_missing t = false ->
   is_cached locate self (mkState t w) = (Return true, mkState t w)) /\
  (is_missing t = true -> boto w = true -> next_fault (s3 w) = None ->
   exists c b,
     coord t = Some c /\
     fst (is_cached locate self (mkState t w)) = Return b /\
     (b = true <->
      is_Some (objects (s3 w)
                 !! (bucket_name (bucket self),
                     locate c (directory_layout self) (file_ext self))))).
Proof.
  split.
  - intros Hm. run. now rewrite Hm.
  - intros Hm Hb Hf.
    apply is_missing_true in Hm as Hm'. destruct Hm' as [[c Hc] _].
    exists c, (bool_decide (is_Some (objects (s3 w)
                 !! (bucket_name (bucket self),
                     locate c (directory_layout self) (file_ext self))))).
    split; [exact Hc|]. split; [|apply bool_decide_eq_true].
    run. rewrite Hm. run. rewrite Hc, (new_Key_loaded _ _ Hb). run.
    rewrite (exists_served _ _ Hf). run. unfold key_name. cbn [name default id].
    now destruct (bool_decide _).
Qed.

(** *** remove_tile *)

(** With the client loaded and both requests served, [remove_tile] is an
    existence check followed, on a hit, by the deletion. *)
Lemma remove_tile_served self t w c :
  coord t = Some c -> boto w = true -> faults (s3 w) = [] ->
  let r := remove_tile locate self (mkState t w) in
  fst r = Return tt /\
  tile (snd r) =
    set_location (locate c (directory_layout self) (file_ext self)) t /\
  boto (env (snd r)) = true /\
  faults (s3 (env (snd r))) = [] /\
  buckets (s3 (env (snd r))) = buckets (s3 w) /\
  objects (s3 (env (snd r))) =
    base.delete (bucket_name (bucket self),
                 locate c (directory_layout self) (file_ext self))
                (objects (s3 w)).
Proof.
  intros Hc Hb Hf. cbv zeta.
  run. rewrite Hc, (new_Key_loaded _ _ Hb). run.
  rewrite (exists_served _ _ (exhausted_next_fault _ Hf)). run.
  unfold key_name. cbn [name default id].
  set (key := (bucket_name (bucket self), _)).
  destruct (bool_decide_reflect (is_Some (objects (s3 w) !! key))) as [Hin|Hout].
  - rewrite delete_served.
    + cbn. rewrite Hf. repeat split; auto.
    + apply exhausted_next_fault. cbn. now rewrite Hf.
  - cbn. rewrite Hf. repeat split; try assumption.
    symmetry. apply delete_id. now apply eq_None_not_Some.
Qed.

(** C7: with both requests served, [remove_tile] on a key the store does
    not hold returns without error and leaves buckets and objects as they
    were; and a second [remove_tile] on the same tile returns without
    error and leaves the store as the first one left it. *)
Theorem remove_tile_idempotent self t w c :
  coord t = Some c -> boto w = true -> faults (s3 w) = [] ->
  let key := (bucket_name (bucket self),
              locate c (directory_layout self) (file_ext self)) in
  let once := remove_tile locate self (mkState t w) in
  let twice := remove_tile locate self (snd once) in
  fst once = Return tt /\
  (objects (s3 w) !! key = None ->
   objects (s3 (env (snd once))) = objects (s3 w) /\
   buckets (s3 (env (snd once))) = buckets (s3 w)) /\
  fst twice = Return tt /\
  objects (s3 (env (snd twice))) = objects (s3 (env (snd once))) /\
  buckets (s3 (env (snd twice))) = buckets (s3 (env (snd once))).
Proof.
  intros Hc Hb Hf key once twice.
  pose proof (remove_tile_served self t w c Hc Hb Hf) as H1.
  cbv zeta in H1. fold once in H1.
  destruct H1 as (Ho1 & Ht1 & Hb1 & Hf1 & Hbk1 & Hobj1).
  assert (Hst : snd once = mkState (tile (snd once)) (env (snd once)))
    by now destruct (snd once).
  assert (Hc1 : coord (tile (snd once)) = Some c) by now rewrite Ht1.
  pose proof (remove_tile_served self _ (env (snd once)) c Hc1 Hb1 Hf1) as H2.
  cbv zeta in H2. rewrite <- Hst in H2. fold twice in H2.
  destruct H2 as (Ho2 & _ & _ & _ & Hbk2 & Hobj2).
  repeat split; try assumption.
  - rewrite Hobj1. now apply delete_id.
  - rewrite Hobj2, Hobj1. fold key. apply delete_delete_eq.
Qed.

(** *** store_tile *)

Lemma store_tile_already_stored self t w :
  stored t = true ->
  store_tile locate self (mkState t w) = (Return tt, mkState t w).
Proof. intros H. run. now rewrite H. Qed.

(** With the client library loaded, [store_tile] on a tile that is not yet
    stored is one upload inside the buffer scope. *)
Lemma store_tile_upload self t w c img :
  stored t = false -> coord t = Some c -> source t = Some img ->
  boto w = true ->
  store_tile locate self (mkState t w) =
    match Boto.set_contents_from_file
            (mkKey (bucket self)
                   (Some (locate c (directory_layout self) (file_ext self)))
                   (if bool_decide (file_ext self ∈ ["jpeg"; "png"])
        then Some ("image/" +:+ file_ext self)
        else Some Boto.DefaultContentType))
            (source_buf img) w with
    | (Return _, w') =>
        (Return tt,
         mkState (set_stored true
                    (set_location
                       (locate c (directory_layout self) (file_ext self)) t))
                 w')
    | (Raise e, w') =>
        (Raise e,
         mkState (set_location
                    (locate c (directory_layout self) (file_ext self)) t)
                 w')
    end.
Proof.
  intros Hst Hc Hs Hb. run. rewrite Hst. run.
  rewrite Hc, (new_Key_loaded _ _ Hb). run. rewrite Hs.
  destruct (bool_decide (file_ext self ∈ ["jpeg"; "png"])); run;
    destruct (Boto.set_contents_from_file _ _ w) as [[[]|e] w']; reflexivity.
Qed.

(** On every path of [store_tile] from a tile that is not stored, the flag
    after the call tells how the call ended. *)
Lemma store_tile_flag_follows_outcome self t w :
  stored t = false ->
  let r := store_tile locate self (mkState t w) in
  (fst r = Return tt -> stored (tile (snd r)) = true) /\
  (forall e, fst r = Raise e -> stored (tile (snd r)) = false).
Proof.
  intros Hst. cbv zeta.
  destruct (coord t) as [c|] eqn:Hc.
  - destruct (boto w) eqn:Hb.
    + destruct (source t) as [img|] eqn:Hs.
      * rewrite (store_tile_upload _ _ _ _ _ Hst Hc Hs Hb).
        destruct (Boto.set_contents_from_file _ _ w) as [[[]|e] w'];
          cbn; split; intros; try discriminate; auto.
      * run. rewrite Hst. run. rewrite Hc, (new_Key_loaded _ _ Hb). run.
        rewrite Hs. cbn. split; intros; try discriminate; auto.
    + run. rewrite Hst. run. rewrite Hc. unfold Boto.new_Key. run.
      rewrite Hb. cbn. split; intros; try discriminate; auto.
  - run. rewrite Hst. run. rewrite Hc. cbn.
    split; intros; try discriminate; auto.
Qed.

(** C2: for a tile that is not marked stored, [store_tile] sends the
    upload of the tile's image bytes under the tile's key; when the upload
    is served, [store_tile] returns, the store holds the bytes under the key
    and the tile is marked stored; when the upload is answered by a failure,
    that failure is raised to the caller, the tile is still not marked
    stored and the objects are as before. *)
Theorem store_tile_marks_stored_only_after_upload self t w c img :
  stored t = false -> coord t = Some c -> source t = Some img ->
  boto w = true ->
  let r := store_tile locate self (mkState t w) in
  let b := bucket_name (bucket self) in
  let k := locate c (directory_layout self) (file_ext self) in
  exists ct,
    log (s3 (env (snd r))) = PUT b k ct (source_buf img) :: log (s3 w) /\
    (next_fault (s3 w) = None ->
     fst r = Return tt /\
     stored (tile (snd r)) = true /\
     objects (s3 (env (snd r))) !! (b, k)
       = Some (mkS3Object (source_buf img) ct)) /\
    (forall e, next_fault (s3 w) = Some e ->
     fst r = Raise e /\
     stored (tile (snd r)) = false /\
     objects (s3 (env (snd r))) = objects (s3 w)).
Proof.
  intros Hst Hc Hs Hb. cbv zeta.
  rewrite (store_tile_upload _ _ _ _ _ Hst Hc Hs Hb).
  eexists. split; [|split].
  - destruct (next_fault (s3 w)) as [e|] eqn:Hf.
    + now rewrite (set_contents_failed _ _ _ _ Hf).
    + now rewrite (set_contents_served _ _ _ Hf).
  - intros Hf. rewrite (set_contents_served _ _ _ Hf). cbn.
    unfold key_name. cbn. repeat split. apply lookup_insert_eq.
  - intros e Hf. rewrite (set_contents_failed _ _ _ _ Hf). cbn. auto.
Qed.


(** C4 as amended: for a tile that is not marked stored, with coordinate
    [c] and image bytes [b], on a store that serves both requests,
    [store_tile] followed by [load_tile] on a fresh tile with the same
    coordinate returns [True] and leaves the fresh tile's source equal to
    [b]. *)
Theorem store_then_load_round_trip self wm t t' w c b :
  stored t = false -> coord t = Some c ->
  source t = Some (mkImageSource b) ->
  coord t' = Some c -> source t' = None ->
  boto w = true -> faults (s3 w) = [] ->
  let put := store_tile locate self (mkState t w) in
  let got := load_tile locate self wm (mkState t' (env (snd put))) in
  fst put = Return tt /\
  fst got = Return true /\
  source (tile (snd got)) = Some (mkImageSource b).
Proof.
  intros Hst Hc Hs Hc' Hs' Hb Hf. cbv zeta.
  rewrite (store_tile_upload _ _ _ _ _ Hst Hc Hs Hb).
  rewrite (set_contents_served _ _ _ (exhausted_next_fault _ Hf)).
  cbn [fst snd env source_buf key_bucket name content_type].
  split; [reflexivity|].
  unfold key_name. cbn [name default id].
  set (w1 := set_s3 _ _).
  assert (Hb1 : boto w1 = true) by exact Hb.
  assert (Hf1 : next_fault (s3 w1) = None).
  { apply exhausted_next_fault. subst w1. cbn. now rewrite Hf. }
  assert (Ho1 : objects (s3 w1)
                  !! (bucket_name (bucket self),
                      locate c (directory_layout self) (file_ext self))
                = Some (mkS3Object b (if bool_decide (file_ext self ∈ ["jpeg"; "png"])
        then Some ("image/" +:+ file_ext self)
        else Some Boto.DefaultContentType))).
  { subst w1. cbn. apply lookup_insert_eq. }
  exact (load_tile_hit self wm t' w1 c _ Hc' Hs' Hb1 Hf1 Ho1).
Qed.

End OperationProperties.

(** ** Construction *)

Lemma connect_default w :
  boto w = true -> ambient_credentials w = true ->
  connect None w = (Return (mkConnection None S3_HOST), w).
Proof.
  intros Hb Ha. unfold connect, Boto.connect_s3. run. rewrite Hb. run.
  now rewrite Ha.
Qed.

Lemma connect_without_boto profile_name w :
  boto w = false ->
  connect profile_name w =
    (Raise (ImportError "S3 Cache requires 'boto' package."), w).
Proof. intros Hb. unfold connect. run. now rewrite Hb. Qed.

(** A served resolution of a bucket the service does not have is answered
    by the [NoSuchBucket] response error. *)
Lemma get_bucket_missing conn bn w :
  next_fault (s3 w) = None -> bn ∉ buckets (s3 w) ->
  fst (Boto.get_bucket conn bn w) =
    Raise (S3ResponseError "NoSuchBucket" "S3ResponseError: 404 Not Found").
Proof.
  intros Hf Hno. unfold Boto.get_bucket. run. rewrite (send_served _ _ Hf).
  cbn. now rewrite bool_decide_eq_false_2.
Qed.

(** The constructor never reads its [profile_name] argument. *)
Lemma S3Cache_init_profile_name_unused cd fe ld dl lt bn pn w :
  S3Cache_init cd fe ld dl lt bn pn w = S3Cache_init cd fe ld dl lt bn None w.
Proof. reflexivity. Qed.

(** Once the connection is open, construction is the bucket resolution
    followed by the handler of its response errors. *)
Lemma S3Cache_init_connected cd fe ld dl lt bn pn w :
  boto w = true -> ambient_credentials w = true ->
  S3Cache_init cd fe ld dl lt bn pn w =
    match Boto.get_bucket (mkConnection None S3_HOST) bn w with
    | (Return b, w') => (Return (FileCache_init b cd fe dl lt false), w')
    | (Raise e, w') =>
        (Raise
           match e with
           | S3ResponseError code _ =>
               if bool_decide (code = "NoSuchBucket")
               then S3ConnectionError ("No such bucket: " +:+ bn)
               else if bool_decide (code = "AccessDenied")
               then S3ConnectionError "Access denied. Check your credentials"
               else S3ConnectionError ("Unknown error: " +:+ str e)
           | _ => e
           end, w')
    end.
Proof.
  intros Hb Ha. unfold S3Cache_init. run. rewrite (connect_default _ Hb Ha).
  destruct (Boto.get_bucket _ bn w) as [[b|e] w']; [reflexivity|].
  destruct e; try reflexivity.
  repeat (destruct (bool_decide _)); reflexivity.
Qed.

(** C10: when the client library could not be imported, construction raises
    [ImportError], which is no connection error, for every combination of
    constructor arguments, and nothing is sent to the store. *)
Theorem S3Cache_init_without_boto cd fe ld dl lt bn pn w :
  boto w = false ->
  S3Cache_init cd fe ld dl lt bn pn w =
    (Raise (ImportError "S3 Cache requires 'boto' package."), w) /\
  forall msg,
    fst (S3Cache_init cd fe ld dl lt bn pn w) <> Raise (S3ConnectionError msg).
Proof.
  intros Hb.
  assert (H : S3Cache_init cd fe ld dl lt bn pn w =
              (Raise (ImportError "S3 Cache requires 'boto' package."), w)).
  { unfold S3Cache_init. run. now rewrite (connect_without_boto None _ Hb). }
  split; [exact H|]. intros msg. rewrite H. discriminate.
Qed.

(** C5 as amended: when the bucket resolution raises [e], construction
    raises and yields no instance; it raises the connection error for a
    missing bucket when [e] is the [NoSuchBucket] response error, the one for
    denied access when [e] is the [AccessDenied] response error, the
    unknown-error one carrying the text of [e] when [e] is any other
    response error, and [e] itself when [e] is no response error. *)
Theorem S3Cache_init_bucket_resolution_failure cd fe ld dl lt bn pn w e :
  boto w = true -> ambient_credentials w = true ->
  fst (Boto.get_bucket (mkConnection None S3_HOST) bn w) = Raise e ->
  let o := fst (S3Cache_init cd fe ld dl lt bn pn w) in
  (exists e', o = Raise e') /\
  (forall text, e = S3ResponseError "NoSuchBucket" text ->
     o = Raise (S3ConnectionError ("No such bucket: " +:+ bn))) /\
  (forall text, e = S3ResponseError "AccessDenied" text ->
     o = Raise (S3ConnectionError "Access denied. Check your credentials")) /\
  (forall code text, e = S3ResponseError code text ->
     code <> "NoSuchBucket" -> code <> "AccessDenied" ->
     o = Raise (S3ConnectionError ("Unknown error: " +:+ text))) /\
  (is_S3ResponseError e = false -> o = Raise e).
Proof.
  intros Hb Ha He. cbv zeta.
  rewrite (S3Cache_init_connected _ _ _ _ _ _ _ _ Hb Ha).
  destruct (Boto.get_bucket _ bn w) as [[b|e0] w']; [discriminate|].
  cbn in He. injection He as ->. cbn [fst].
  split; [eauto|]. repeat split.
  - intros text ->. reflexivity.
  - intros text ->. reflexivity.
  - intros code text -> Hn Ha'.
    now rewrite !bool_decide_eq_false_2.
  - intros Hr. destruct e; try reflexivity. discriminate.
Qed.

(** C5, the claim as stated fails: a bucket resolution that times out makes
    construction raise the time-out itself, which is no connection error. *)
Lemma S3Cache_init_timeout_not_wrapped :
  fst (Boto.get_bucket (mkConnection None S3_HOST) "maps"
         (Scenario.world [Some Scenario.timed_out]))
    = Raise Scenario.timed_out /\
  fst (S3Cache_init "/var/cache/tiles" "png" None "tms" 60 "maps" None
         (Scenario.world [Some Scenario.timed_out]))
    = Raise Scenario.timed_out /\
  is_S3ConnectionError Scenario.timed_out = false.
Proof. repeat split; vm_compute; reflexivity. Qed.

(** C3, the code at the failing input: constructed with the configured
    profile ["prod"], the instance holds a bucket whose connection was opened
    with no profile. *)
Theorem S3Cache_init_drops_profile_name :
  "prod" ∈ profiles (Scenario.world []) /\
  fst (S3Cache_init "/var/cache/tiles" "png" None "tms" 60 "maps"
         (Some "prod") (Scenario.world []))
    = Return Scenario.cache /\
  conn_profile_name (connection (bucket Scenario.cache)) = None.
Proof.
  split.
  { unfold Scenario.world. cbn [profiles]. now apply elem_of_singleton_2. }
  split; [|reflexivity]. vm_compute. reflexivity.
Qed.

(** C1, the code at the failing input: a permission-denied response to the
    fetch makes [load_tile] return [False] instead of raising. *)
Theorem load_tile_swallows_access_denied :
  is_missing Scenario.fresh_tile = true /\
  next_fault (s3 (Scenario.world [Some Scenario.access_denied]))
    = Some Scenario.access_denied /\
  fst (load_tile Scenario.locate Scenario.cache false
         (mkState Scenario.fresh_tile
                  (Scenario.world [Some Scenario.access_denied])))
    = Return false.
Proof.
  split; [reflexivity|]. split; [reflexivity|].
  exact (load_tile_response_error Scenario.locate Scenario.cache false
           Scenario.fresh_tile (Scenario.world [Some Scenario.access_denied])
           Scenario.c342 "AccessDenied" "S3ResponseError: 403 Forbidden"
           eq_refl eq_refl eq_refl eq_refl).
Qed.

(** C4, the claim as stated fails: [store_tile] on a tile already marked
    stored uploads nothing, so on a store that does not hold the object the
    following [load_tile] of a fresh tile with the same coordinate returns
    [False] and fills no source. *)
Lemma round_trip_fails_for_stored_tile :
  coord Scenario.stored_tile = coord Scenario.fresh_tile /\
  source Scenario.stored_tile = Some (mkImageSource Scenario.tiledata) /\
  fst (store_tile Scenario.locate Scenario.cache
         (mkState Scenario.stored_tile (Scenario.world [])))
    = Return tt /\
  fst (load_tile Scenario.locate Scenario.cache false
         (mkState Scenario.fresh_tile
            (env (snd (store_tile Scenario.locate Scenario.cache
                         (mkState Scenario.stored_tile (Scenario.world [])))))))
    = Return false /\
  source (tile (snd (load_tile Scenario.locate Scenario.cache false
         (mkState Scenario.fresh_tile
            (env (snd (store_tile Scenario.locate Scenario.cache
                         (mkState Scenario.stored_tile (Scenario.world []))))))))) = None.
Proof. repeat split; vm_compute; reflexivity. Qed.

(** C9, the claim as stated fails: a miss on the empty store returns
    [False] and leaves the derived key in the [location] field of the tile,
    which held nothing before the call. *)
Lemma load_tile_miss_sets_location :
  fst (load_tile Scenario.locate Scenario.cache false
         (mkState Scenario.fresh_tile (Scenario.world []))) = Return false /\
  location Scenario.fresh_tile = None /\
  location (tile (snd (load_tile Scenario.locate Scenario.cache false
                         (mkState Scenario.fresh_tile (Scenario.world [])))))
    = Some "tms/2/3/4.png" /\
  tile (snd (load_tile Scenario.locate Scenario.cache false
               (mkState Scenario.fresh_tile (Scenario.world []))))
    <> Scenario.fresh_tile.
Proof.
  repeat split; try (vm_compute; reflexivity).
  intros H. apply (f_equal location) in H. vm_compute in H. discriminate.
Qed.

(** ** The properties on the scenario *)

(** The image tile of the scenario: a served upload puts the image in the
    store and marks the tile stored, a timed-out upload raises the time-out
    and leaves tile and store as they were. *)
Lemma store_tile_marks_stored_only_after_upload_witness :
  (stored Scenario.image_tile = false /\
   coord Scenario.image_tile = Some Scenario.c342 /\
   source Scenario.image_tile = Some (mkImageSource Scenario.tiledata) /\
   boto (Scenario.world []) = true) /\
  (exists ct,
     log (s3 (env (snd (store_tile Scenario.locate Scenario.cache
            (mkState Scenario.image_tile (Scenario.world []))))))
       = [PUT "maps" "tms/2/3/4.png" ct Scenario.tiledata] /\
     fst (store_tile Scenario.locate Scenario.cache
            (mkState Scenario.image_tile (Scenario.world []))) = Return tt /\
     stored (tile (snd (store_tile Scenario.locate Scenario.cache
            (mkState Scenario.image_tile (Scenario.world []))))) = true /\
     objects (s3 (env (snd (store_tile Scenario.locate Scenario.cache
            (mkState Scenario.image_tile (Scenario.world []))))))
       !! ("maps", "tms/2/3/4.png")
       = Some (mkS3Object Scenario.tiledata ct)) /\
  (fst (store_tile Scenario.locate Scenario.cache
          (mkState Scenario.image_tile
             (Scenario.world [Some Scenario.timed_out])))
     = Raise Scenario.timed_out /\
   stored (tile (snd (store_tile Scenario.locate Scenario.cache
          (mkState Scenario.image_tile
             (Scenario.world [Some Scenario.timed_out]))))) = false /\
   objects (s3 (env (snd (store_tile Scenario.locate Scenario.cache
          (mkState Scenario.image_tile
             (Scenario.world [Some Scenario.timed_out]))))))
     = objects (s3 (Scenario.world [Some Scenario.timed_out]))).
Proof.
  split; [repeat split|]. split.
  - destruct (store_tile_marks_stored_only_after_upload
                Scenario.locate Scenario.cache Scenario.image_tile
                (Scenario.world []) Scenario.c342
                (mkImageSource Scenario.tiledata)
                eq_refl eq_refl eq_refl eq_refl) as (ct & Hlog & Hok & _).
    exists ct. split; [exact Hlog|exact (Hok eq_refl)].
  - destruct (store_tile_marks_stored_only_after_upload
                Scenario.locate Scenario.cache Scenario.image_tile
                (Scenario.world [Some Scenario.timed_out]) Scenario.c342
                (mkImageSource Scenario.tiledata)
                eq_refl eq_refl eq_refl eq_refl) as (ct & _ & _ & Hfail).
    exact (Hfail Scenario.timed_out eq_refl).
Defined.

(** The round trip of the scenario: the image is stored, then read back
    into a fresh tile. *)
Lemma store_then_load_round_trip_witness :
  (stored Scenario.image_tile = false /\
   coord Scenario.image_tile = Some Scenario.c342 /\
   source Scenario.image_tile = Some (mkImageSource Scenario.tiledata) /\
   coord Scenario.fresh_tile = Some Scenario.c342 /\
   source Scenario.fresh_tile = None /\
   boto (Scenario.world []) = true /\
   faults (s3 (Scenario.world [])) = []) /\
  fst (store_tile Scenario.locate Scenario.cache
         (mkState Scenario.image_tile (Scenario.world []))) = Return tt /\
  fst (load_tile Scenario.locate Scenario.cache false
         (mkState Scenario.fresh_tile
            (env (snd (store_tile Scenario.locate Scenario.cache
                    (mkState Scenario.image_tile (Scenario.world [])))))))
    = Return true /\
  source (tile (snd (load_tile Scenario.locate Scenario.cache false
         (mkState Scenario.fresh_tile
            (env (snd (store_tile Scenario.locate Scenario.cache
                    (mkState Scenario.image_tile (Scenario.world []))))))))) 
    = Some (mkImageSource Scenario.tiledata).
Proof.
  split; [repeat split|].
  exact (store_then_load_round_trip
           Scenario.locate Scenario.cache false Scenario.image_tile
           Scenario.fresh_tile (Scenario.world []) Scenario.c342
           Scenario.tiledata
           eq_refl eq_refl eq_refl eq_refl eq_refl eq_refl eq_refl).
Defined.

(** Construction against the bucket ["nomaps"], which the service does
    not have. *)
Lemma S3Cache_init_bucket_resolution_failure_witness :
  (boto (Scenario.world []) = true /\
   ambient_credentials (Scenario.world []) = true /\
   fst (Boto.get_bucket (mkConnection None S3_HOST) "nomaps" (Scenario.world []))
     = Raise (S3ResponseError "NoSuchBucket" "S3ResponseError: 404 Not Found")) /\
  fst (S3Cache_init "/var/cache/tiles" "png" None "tms" 60 "nomaps" None
         (Scenario.world []))
    = Raise (S3ConnectionError "No such bucket: nomaps").
Proof.
  split; [repeat split|].
  exact (proj1 (proj2 (S3Cache_init_bucket_resolution_failure
           "/var/cache/tiles" "png" None "tms" 60 "nomaps" None
           (Scenario.world [])
           (S3ResponseError "NoSuchBucket" "S3ResponseError: 404 Not Found")
           eq_refl eq_refl eq_refl))
         "S3ResponseError: 404 Not Found" eq_refl).
Defined.

(** [is_cached] on the image tile and on the fresh tile of the scenario. *)
Lemma is_cached_fast_path_and_lookup_witness :
  (is_missing Scenario.image_tile = false /\
   is_cached Scenario.locate Scenario.cache
     (mkState Scenario.image_tile (Scenario.world []))
   = (Return true, mkState Scenario.image_tile (Scenario.world []))) /\
  (is_missing Scenario.fresh_tile = true /\
   boto (Scenario.world []) = true /\
   next_fault (s3 (Scenario.world [])) = None /\
   exists c b,
     coord Scenario.fresh_tile = Some c /\
     fst (is_cached Scenario.locate Scenario.cache
            (mkState Scenario.fresh_tile (Scenario.world []))) = Return b /\
     (b = true <->
      is_Some (objects (s3 (Scenario.world []))
                 !! (bucket_name (bucket Scenario.cache),
                     Scenario.locate c (directory_layout Scenario.cache)
                       (file_ext Scenario.cache))))).
Proof.
  split.
  - split; [reflexivity|].
    exact (proj1 (is_cached_fast_path_and_lookup Scenario.locate Scenario.cache
                    Scenario.image_tile (Scenario.world [])) eq_refl).
  - repeat (split; [reflexivity|]).
    exact (proj2 (is_cached_fast_path_and_lookup Scenario.locate Scenario.cache
                    Scenario.fresh_tile (Scenario.world []))
             eq_refl eq_refl eq_refl).
Defined.

(** [remove_tile], once and twice, on the empty store of the scenario. *)
Lemma remove_tile_idempotent_witness :
  (coord Scenario.fresh_tile = Some Scenario.c342 /\
   boto (Scenario.world []) = true /\
   faults (s3 (Scenario.world [])) = []) /\
  fst (remove_tile Scenario.locate Scenario.cache
         (mkState Scenario.fresh_tile (Scenario.world []))) = Return tt /\
  objects (s3 (env (snd (remove_tile Scenario.locate Scenario.cache
         (mkState Scenario.fresh_tile (Scenario.world []))))))
    = objects (s3 (Scenario.world [])) /\
  fst (remove_tile Scenario.locate Scenario.cache
         (snd (remove_tile Scenario.locate Scenario.cache
                 (mkState Scenario.fresh_tile (Scenario.world [])))))
    = Return tt.
Proof.
  split; [repeat split|].
  destruct (remove_tile_idempotent Scenario.locate Scenario.cache
              Scenario.fresh_tile (Scenario.world []) Scenario.c342
              eq_refl eq_refl eq_refl) as (H1 & H2 & H3 & _).
  split; [exact H1|]. split; [exact (proj1 (H2 eq_refl))|exact H3].
Defined.


(** A miss on the empty store of the scenario changes nothing of the fresh
    tile but its [location]. *)
Lemma load_tile_false_changes_only_location_witness :
  load_tile Scenario.locate Scenario.cache false
    (mkState Scenario.fresh_tile (Scenario.world []))
  = (Return false,
     snd (load_tile Scenario.locate Scenario.cache false
            (mkState Scenario.fresh_tile (Scenario.world [])))) /\
  exists c,
    coord Scenario.fresh_tile = Some c /\
    tile (snd (load_tile Scenario.locate Scenario.cache false
                 (mkState Scenario.fresh_tile (Scenario.world []))))
    = set_location
        (Scenario.locate c (directory_layout Scenario.cache)
           (file_ext Scenario.cache))
        Scenario.fresh_tile.
Proof.
  assert (H : load_tile Scenario.locate Scenario.cache false
                (mkState Scenario.fresh_tile (Scenario.world []))
              = (Return false,
                 snd (load_tile Scenario.locate Scenario.cache false
                        (mkState Scenario.fresh_tile (Scenario.world [])))))
    by (vm_compute; reflexivity).
  split; [exact H|].
  exact (load_tile_false_changes_only_location Scenario.locate Scenario.cache false
           _ _ H).
Defined.

(** Construction in the process where the import failed. *)
Lemma S3Cache_init_without_boto_witness :
  boto Scenario.world_without_boto = false /\
  S3Cache_init "/var/cache/tiles" "png" None "tms" 60 "maps" (Some "prod")
    Scenario.world_without_boto
  = (Raise (ImportError "S3 Cache requires 'boto' package."),
     Scenario.world_without_boto).
Proof.
  split; [reflexivity|].
  exact (proj1 (S3Cache_init_without_boto
                  "/var/cache/tiles" "png" None "tms" 60 "maps" (Some "prod")
                  Scenario.world_without_boto eq_refl)).
Defined.

(** * Further properties of the module *)

(** ** connect *)

(** X1: [connect] sends nothing and changes nothing; it returns a connection
    for the requested profile on the fixed host, or raises [ImportError] or
    [S3ConnectionError]: no exception of the client library escapes it. *)
Theorem connect_outcomes profile_name w :
  snd (connect profile_name w) = w /\
  (fst (connect profile_name w) = Return (mkConnection profile_name S3_HOST) \/
   (exists msg, fst (connect profile_name w) = Raise (ImportError msg)) \/
   (exists msg, fst (connect profile_name w) = Raise (S3ConnectionError msg))).
Proof.
  unfold connect, Boto.connect_s3. run.
  destruct (boto w); cbn; [|eauto].
  destruct profile_name as [p|].
  - destruct (bool_decide (p ∈ profiles w)); cbn; eauto.
  - destruct (ambient_credentials w); cbn; eauto.
Qed.

(** X2: with the client library loaded, [connect] with a configured profile
    returns a connection that uses that profile; with a profile that is not
    configured it raises the connection error whose message starts with
    ["Profile no found "]. *)
Theorem connect_named_profile p w :
  boto w = true ->
  (p ∈ profiles w ->
   connect (Some p) w = (Return (mkConnection (Some p) S3_HOST), w)) /\
  (p ∉ profiles w ->
   exists msg,
     connect (Some p) w = (Raise (S3ConnectionError ("Profile no found " +:+ msg)), w)).
Proof.
  intros Hb. unfold connect, Boto.connect_s3. run. rewrite Hb. cbn. split.
  - intros Hin. now rewrite bool_decide_eq_true_2.
  - intros Hout. rewrite bool_decide_eq_false_2 by assumption. cbn. eauto.
Qed.

(** ** The constructor *)

(** X3: when the default connection opens and the resolution of an existing
    bucket is served, construction with the default directory layout
    ["tms"] returns the instance bound to that bucket with the given cache
    directory, extension and lock time-out and with single-colour linking
    off, after exactly one request, the HEAD on the bucket. *)
Theorem S3Cache_init_success cd fe ld lt bn pn w :
  boto w = true -> ambient_credentials w = true ->
  next_fault (s3 w) = None -> bn ∈ buckets (s3 w) ->
  S3Cache_init cd fe ld default_directory_layout lt bn pn w =
    (Return (mkS3Cache (mkBucket (mkConnection None S3_HOST) bn)
                       cd fe default_directory_layout lt false),
     set_s3 (received (HEAD_BUCKET bn)) w).
Proof.
  intros Hb Ha Hf Hin.
  rewrite (S3Cache_init_connected _ _ _ _ _ _ _ _ Hb Ha).
  unfold Boto.get_bucket. run. rewrite (send_served _ _ Hf). cbn.
  now rewrite bool_decide_eq_true_2.
Qed.

(** X4: no [S3ResponseError] leaves the constructor, whatever the arguments
    and whatever the store answers. *)
Theorem S3Cache_init_never_raises_response_error cd fe ld dl lt bn pn w code text :
  fst (S3Cache_init cd fe ld dl lt bn pn w) <> Raise (S3ResponseError code text).
Proof.
  destruct (boto w) eqn:Hb.
  - destruct (ambient_credentials w) eqn:Ha.
    + rewrite (S3Cache_init_connected _ _ _ _ _ _ _ _ Hb Ha).
      destruct (Boto.get_bucket _ bn w) as [[b|e] w']; cbn; [discriminate|].
      destruct e; try discriminate.
      repeat (destruct (bool_decide _)); discriminate.
    + unfold S3Cache_init, connect, Boto.connect_s3. run.
      rewrite Hb. cbn. rewrite Ha. cbn. discriminate.
  - unfold S3Cache_init. run. rewrite (connect_without_boto None _ Hb).
    cbn. discriminate.
Qed.

(** X5: when there are no ambient default credentials, construction raises
    the connection error whose message starts with
    ["Error during connection "] for every profile name it is given, and no
    request reaches the store. *)
Theorem S3Cache_init_without_credentials cd fe ld dl lt bn pn w :
  boto w = true -> ambient_credentials w = false ->
  exists msg,
    S3Cache_init cd fe ld dl lt bn pn w =
      (Raise (S3ConnectionError ("Error during connection " +:+ msg)), w).
Proof.
  intros Hb Ha. unfold S3Cache_init, connect, Boto.connect_s3. run.
  rewrite Hb. cbn. rewrite Ha. cbn. eauto.
Qed.

(** ** The tile operations *)

Section MoreOperationProperties.

Variable locate : Coord -> string -> string -> string.

(** With the client library loaded, [is_cached] on a missing tile is one
    existence check, whose answer or failure is the result. *)
Lemma is_cached_missing self t w c :
  coord t = Some c -> source t = None -> boto w = true ->
  is_cached locate self (mkState t w) =
    match Boto.exists_
            (mkKey (bucket self)
               (Some (locate c (directory_layout self) (file_ext self)))
       (Some Boto.DefaultContentType))
            w with
    | (Return hit, w') =>
        (Return hit,
         mkState (set_location
                    (locate c (directory_layout self) (file_ext self)) t) w')
    | (Raise e, w') =>
        (Raise e,
         mkState (set_location
                    (locate c (directory_layout self) (file_ext self)) t) w')
    end.
Proof.
  intros Hc Hs Hb.
  assert (Hm : is_missing t = true) by (apply is_missing_true; eauto).
  run. rewrite Hm. run. rewrite Hc, (new_Key_loaded _ _ Hb). run.
  destruct (Boto.exists_ _ w) as [[[]|e] w']; reflexivity.
Qed.

Lemma exists_failed (k : Key) (w : Env) (e : Exception) :
  next_fault (s3 w) = Some e ->
  Boto.exists_ k w =
    (Raise e, set_s3 (received (HEAD (bucket_name (key_bucket k)) (key_name k))) w).
Proof.
  intros H. unfold Boto.exists_, bind. now rewrite (send_failed _ _ _ H).
Qed.

(** X6: [is_cached] never changes the buckets or the objects; of the tile
    it changes nothing, or nothing but the [location] field, which it sets
    to a key; and it sends nothing or exactly one HEAD on the instance's
    bucket. *)
Theorem is_cached_read_only self st :
  (tile (snd (is_cached locate self st)) = tile st \/
   exists k, tile (snd (is_cached locate self st)) = set_location k (tile st)) /\
  objects (s3 (env (snd (is_cached locate self st)))) = objects (s3 (env st)) /\
  buckets (s3 (env (snd (is_cached locate self st)))) = buckets (s3 (env st)) /\
  (log (s3 (env (snd (is_cached locate self st)))) = log (s3 (env st)) \/
   exists k,
     log (s3 (env (snd (is_cached locate self st)))) =
       HEAD (bucket_name (bucket self)) k :: log (s3 (env st))).
Proof.
  destruct st as [t w]. cbn [tile env].
  destruct (is_missing t) eqn:Hm.
  - apply is_missing_true in Hm as Hm'. destruct Hm' as [[c Hc] Hs].
    destruct (boto w) eqn:Hb.
    + rewrite (is_cached_missing _ _ _ _ Hc Hs Hb).
      destruct (next_fault (s3 w)) as [e|] eqn:Hf.
      * rewrite (exists_failed _ _ _ Hf). cbn. eauto 10.
      * rewrite (exists_served _ _ Hf). cbn. eauto 10.
    + run. rewrite Hm. run. rewrite Hc. unfold Boto.new_Key. run.
      rewrite Hb. cbn. eauto 10.
  - run. rewrite Hm. cbn. auto.
Qed.

(** X7: a failed existence check is raised to the caller of [is_cached],
    response errors included; the tile is as before except for its
    [location], which holds the derived key. *)
Theorem is_cached_failure_propagates self t w e :
  is_missing t = true -> boto w = true -> next_fault (s3 w) = Some e ->
  fst (is_cached locate self (mkState t w)) = Raise e /\
  exists c,
    coord t = Some c /\
    tile (snd (is_cached locate self (mkState t w))) =
      set_location (locate c (directory_layout self) (file_ext self)) t.
Proof.
  intros Hm Hb Hf. apply is_missing_true in Hm as [[c Hc] Hs].
  rewrite (is_cached_missing _ _ _ _ Hc Hs Hb), (exists_failed _ _ _ Hf).
  cbn. eauto.
Qed.

(** X8: [load_tile] never changes the buckets or the objects; of the tile
    it changes nothing, or sets [location] to a key and nothing else, or
    sets [location] to a key and the source to an image and nothing else;
    and it sends nothing or exactly one GET on the instance's bucket. *)
Theorem load_tile_read_only self wm st :
  objects (s3 (env (snd (load_tile locate self wm st)))) = objects (s3 (env st)) /\
  buckets (s3 (env (snd (load_tile locate self wm st)))) = buckets (s3 (env st)) /\
  (tile (snd (load_tile locate self wm st)) = tile st \/
   exists k,
     tile (snd (load_tile locate self wm st)) = set_location k (tile st) \/
     exists img,
       tile (snd (load_tile locate self wm st)) =
         set_source img (set_location k (tile st))) /\
  (log (s3 (env (snd (load_tile locate self wm st)))) = log (s3 (env st)) \/
   exists k,
     log (s3 (env (snd (load_tile locate self wm st)))) =
       GET (bucket_name (bucket self)) k :: log (s3 (env st))).
Proof.
  destruct st as [t w]. cbn [tile env].
  destruct (is_missing t) eqn:Hm.
  - apply is_missing_true in Hm as Hm'. destruct Hm' as [[c Hc] Hs].
    destruct (boto w) eqn:Hb.
    + rewrite (load_tile_missing _ _ _ _ _ _ Hc Hs Hb).
      destruct (next_fault (s3 w)) as [e|] eqn:Hf.
      * rewrite (get_contents_failed _ _ _ _ Hf).
        destruct (is_S3ResponseError e); cbn; eauto 10.
      * rewrite (get_contents_served _ _ _ Hf).
        destruct (objects (s3 w) !! _); cbn; eauto 10.
    + run. rewrite Hm. run. rewrite Hc. unfold Boto.new_Key. run.
      rewrite Hb. cbn. eauto 10.
  - rewrite (load_tile_not_missing _ _ _ _ _ Hm). cbn. auto 10.
Qed.

(** X9: whenever [load_tile] returns [True], the tile is not missing
    afterwards. *)
Theorem load_tile_true_not_missing self wm st st' :
  load_tile locate self wm st = (Return true, st') ->
  is_missing (tile st') = false.
Proof.
  destruct st as [t w]. intros H.
  destruct (is_missing t) eqn:Hm.
  - apply is_missing_true in Hm as Hm'. destruct Hm' as [[c Hc] Hs].
    destruct (boto w) eqn:Hb.
    + rewrite (load_tile_missing _ _ _ _ _ _ Hc Hs Hb) in H.
      destruct (Boto.get_contents_to_file _ [] w) as [[data|e] w'].
      * inversion H. subst. unfold is_missing. cbn.
        now destruct (coord t).
      * destruct (is_S3ResponseError e); discriminate.
    + destruct (load_tile_no_boto locate self wm _ _ Hm Hb) as (e & st0 & He).
      rewrite He in H. discriminate.
  - rewrite (load_tile_not_missing _ _ _ _ _ Hm) in H. now inversion H.
Qed.

(** X10: a failure of the fetch that is no response error is raised to the
    caller of [load_tile]; the tile is as before except for its [location],
    which holds the derived key. *)
Theorem load_tile_transport_failure self wm t w c e :
  coord t = Some c -> source t = None -> boto w = true ->
  next_fault (s3 w) = Some e -> is_S3ResponseError e = false ->
  fst (load_tile locate self wm (mkState t w)) = Raise e /\
  tile (snd (load_tile locate self wm (mkState t w))) =
    set_location (locate c (directory_layout self) (file_ext self)) t.
Proof.
  intros Hc Hs Hb Hf He. rewrite (load_tile_missing _ _ _ _ _ _ Hc Hs Hb).
  rewrite (get_contents_failed _ _ _ _ Hf), He. cbn. auto.
Qed.

(** X11: a served [store_tile] of a tile that is not marked stored writes
    the tile's image bytes, with the content-type hint, under the tile's key
    and under no other key: every other object, and the buckets, are as
    before. An object already under the key is replaced. *)
Theorem store_tile_writes_only_its_key self t w c img :
  stored t = false -> coord t = Some c -> source t = Some img ->
  boto w = true -> next_fault (s3 w) = None ->
  let key := (bucket_name (bucket self),
              locate c (directory_layout self) (file_ext self)) in
  let after := s3 (env (snd (store_tile locate self (mkState t w)))) in
  (exists ct, objects after !! key = Some (mkS3Object (source_buf img) ct)) /\
  (forall key', key' <> key -> objects after !! key' = objects (s3 w) !! key') /\
  buckets after = buckets (s3 w).
Proof.
  intros Hst Hc Hs Hb Hf. cbv zeta.
  rewrite (store_tile_upload _ _ _ _ _ _ Hst Hc Hs Hb).
  rewrite (set_contents_served _ _ _ Hf). cbn. unfold key_name. cbn.
  split; [|split].
  - eexists. apply lookup_insert_eq.
  - intros key' Hne. now apply lookup_insert_ne.
  - reflexivity.
Qed.

(** X12: after a served [store_tile], a second [store_tile] on the same
    tile returns at once: no request is sent and tile and store stay as the
    first call left them. *)
Theorem store_tile_twice_uploads_once self t w c img :
  stored t = false -> coord t = Some c -> source t = Some img ->
  boto w = true -> next_fault (s3 w) = None ->
  store_tile locate self (snd (store_tile locate self (mkState t w))) =
    (Return tt, snd (store_tile locate self (mkState t w))).
Proof.
  intros Hst Hc Hs Hb Hf.
  rewrite (store_tile_upload _ _ _ _ _ _ Hst Hc Hs Hb).
  rewrite (set_contents_served _ _ _ Hf). cbn [snd].
  now apply store_tile_already_stored.
Qed.

(** X13: a [store_tile] whose upload fails leaves the objects as they
    were and the tile as it was except for its [location], which holds the
    derived key, so the call can be repeated: when the second upload is
    served it returns, the object is under the tile's key and the tile is
    marked stored. *)
Theorem store_tile_retry_after_failure self t w c img e :
  stored t = false -> coord t = Some c -> source t = Some img ->
  boto w = true -> faults (s3 w) = [Some e] ->
  let first := store_tile locate self (mkState t w) in
  let second := store_tile locate self (snd first) in
  fst first = Raise e /\
  tile (snd first) =
    set_location (locate c (directory_layout self) (file_ext self)) t /\
  objects (s3 (env (snd first))) = objects (s3 w) /\
  fst second = Return tt /\
  stored (tile (snd second)) = true /\
  exists ct,
    objects (s3 (env (snd second)))
      !! (bucket_name (bucket self),
          locate c (directory_layout self) (file_ext self))
    = Some (mkS3Object (source_buf img) ct).
Proof.
  intros Hst Hc Hs Hb Hf. cbv zeta.
  assert (Hf1 : next_fault (s3 w) = Some e) by (unfold next_fault; now rewrite Hf).
  rewrite (store_tile_upload _ _ _ _ _ _ Hst Hc Hs Hb).
  rewrite (set_contents_failed _ _ _ _ Hf1). cbn [fst snd tile env].
  set (w1 := set_s3 _ w).
  set (t1 := set_location _ t).
  assert (Hb1 : boto w1 = true) by exact Hb.
  assert (Hf2 : next_fault (s3 w1) = None).
  { subst w1. unfold next_fault. cbn. now rewrite Hf. }
  assert (Hst1 : stored t1 = false) by exact Hst.
  assert (Hc1 : coord t1 = Some c) by exact Hc.
  assert (Hs1 : source t1 = Some img) by exact Hs.
  rewrite (store_tile_upload _ _ _ _ _ _ Hst1 Hc1 Hs1 Hb1).
  rewrite (set_contents_served _ _ _ Hf2). cbn. unfold key_name. cbn.
  repeat split. eexists. apply lookup_insert_eq.
Qed.

(** X14: on a store that serves the requests, [store_tile] followed by
    [is_cached] on a fresh tile with the same coordinate answers [True]. *)
Theorem store_then_is_cached self t t' w c img :
  stored t = false -> coord t = Some c -> source t = Some img ->
  coord t' = Some c -> source t' = None ->
  boto w = true -> faults (s3 w) = [] ->
  fst (is_cached locate self
         (mkState t' (env (snd (store_tile locate self (mkState t w))))))
    = Return true.
Proof.
  intros Hst Hc Hs Hc' Hs' Hb Hf.
  rewrite (store_tile_upload _ _ _ _ _ _ Hst Hc Hs Hb).
  rewrite (set_contents_served _ _ _ (exhausted_next_fault _ Hf)).
  cbn [snd env]. set (w1 := set_s3 _ _).
  assert (Hb1 : boto w1 = true) by exact Hb.
  assert (Hf1 : next_fault (s3 w1) = None).
  { apply exhausted_next_fault. subst w1. cbn. now rewrite Hf. }
  rewrite (is_cached_missing _ _ _ _ Hc' Hs' Hb1), (exists_served _ _ Hf1).
  cbn [fst]. f_equal. apply bool_decide_eq_true_2.
  subst w1. cbn. unfold key_name. cbn. rewrite lookup_insert_eq. eauto.
Qed.

Lemma delete_failed (k : Key) (w : Env) (e : Exception) :
  next_fault (s3 w) = Some e ->
  Boto.delete k w =
    (Raise e,
     set_s3 (received (DELETE (bucket_name (key_bucket k)) (key_name k))) w).
Proof.
  intros H. unfold Boto.delete, bind. now rewrite (send_failed _ _ _ H).
Qed.

(** With the client library loaded, [remove_tile] on a tile with a
    coordinate is an existence check and, on a hit, the deletion. *)
Lemma remove_tile_steps self t w c :
  coord t = Some c -> boto w = true ->
  remove_tile locate self (mkState t w) =
    let k := mkKey (bucket self)
               (Some (locate c (directory_layout self) (file_ext self))) None in
    match Boto.exists_ k w with
    | (Return true, w') =>
        match Boto.delete k w' with
        | (Return _, w'') => (Return tt, mkState (set_location
                   (locate c (directory_layout self) (file_ext self)) t) w'')
        | (Raise e, w'') => (Raise e, mkState (set_location
                   (locate c (directory_layout self) (file_ext self)) t) w'')
        end
    | (Return false, w') => (Return tt, mkState (set_location
                   (locate c (directory_layout self) (file_ext self)) t) w')
    | (Raise e, w') => (Raise e, mkState (set_location
                   (locate c (directory_layout self) (file_ext self)) t) w')
    end.
Proof.
  intros Hc Hb. cbv zeta. run. rewrite Hc, (new_Key_loaded _ _ Hb). run.
  destruct (Boto.exists_ _ w) as [[[]|e] w']; try reflexivity.
  cbn [tile env].
  destruct (Boto.delete _ w') as [[[]|e] w'']; reflexivity.
Qed.

(** X15: a served [remove_tile] leaves no object under the tile's key and
    leaves every other object, and the buckets, as they were. *)
Theorem remove_tile_deletes_only_its_key self t w c :
  coord t = Some c -> boto w = true -> faults (s3 w) = [] ->
  let key := (bucket_name (bucket self),
              locate c (directory_layout self) (file_ext self)) in
  let after := s3 (env (snd (remove_tile locate self (mkState t w)))) in
  objects after !! key = None /\
  (forall key', key' <> key -> objects after !! key' = objects (s3 w) !! key') /\
  buckets after = buckets (s3 w).
Proof.
  intros Hc Hb Hf. cbv zeta.
  destruct (remove_tile_served locate self t w c Hc Hb Hf)
    as (_ & _ & _ & _ & Hbk & Hobj).
  rewrite Hobj, Hbk. split; [apply lookup_delete_eq|]. split; [|reflexivity].
  intros key' Hne. now apply lookup_delete_ne.
Qed.

(** X16: a served [remove_tile] sends the HEAD on the key and, only when
    the store holds the object, the DELETE after it. *)
Theorem remove_tile_requests self t w c :
  coord t = Some c -> boto w = true -> faults (s3 w) = [] ->
  let b := bucket_name (bucket self) in
  let k := locate c (directory_layout self) (file_ext self) in
  log (s3 (env (snd (remove_tile locate self (mkState t w))))) =
    if bool_decide (is_Some (objects (s3 w) !! (b, k)))
    then DELETE b k :: HEAD b k :: log (s3 w)
    else HEAD b k :: log (s3 w).
Proof.
  intros Hc Hb Hf. cbv zeta. rewrite (remove_tile_steps _ _ _ _ Hc Hb). cbv zeta.
  rewrite (exists_served _ _ (exhausted_next_fault _ Hf)).
  unfold key_name. cbn [key_bucket name default id].
  destruct (bool_decide _); [|reflexivity].
  rewrite delete_served; [reflexivity|].
  apply exhausted_next_fault. cbn. now rewrite Hf.
Qed.

(** X17: when the existence check of [remove_tile] fails, the failure is
    raised to the caller, no DELETE is sent and the objects are as before. *)
Theorem remove_tile_check_failure self t w c e :
  coord t = Some c -> boto w = true -> next_fault (s3 w) = Some e ->
  let r := remove_tile locate self (mkState t w) in
  fst r = Raise e /\
  objects (s3 (env (snd r))) = objects (s3 w) /\
  log (s3 (env (snd r))) =
    HEAD (bucket_name (bucket self))
         (locate c (directory_layout self) (file_ext self)) :: log (s3 w).
Proof.
  intros Hc Hb Hf. cbv zeta. rewrite (remove_tile_steps _ _ _ _ Hc Hb). cbv zeta.
  rewrite (exists_failed _ _ _ Hf). cbn. auto.
Qed.

(** X18: when the store holds the object and the DELETE of [remove_tile]
    fails, the failure is raised to the caller and the object is still in
    the store. *)
Theorem remove_tile_delete_failure self t w c e rest o :
  coord t = Some c -> boto w = true -> faults (s3 w) = None :: Some e :: rest ->
  objects (s3 w)
    !! (bucket_name (bucket self),
        locate c (directory_layout self) (file_ext self)) = Some o ->
  let r := remove_tile locate self (mkState t w) in
  fst r = Raise e /\
  objects (s3 (env (snd r))) = objects (s3 w).
Proof.
  intros Hc Hb Hf Ho. cbv zeta.
  assert (Hf1 : next_fault (s3 w) = None) by (unfold next_fault; now rewrite Hf).
  rewrite (remove_tile_steps _ _ _ _ Hc Hb). cbv zeta.
  rewrite (exists_served _ _ Hf1).
  unfold key_name. cbn [key_bucket name default id].
  rewrite Ho, bool_decide_eq_true_2 by eauto.
  rewrite (delete_failed _ _ e); [cbn; auto|].
  unfold next_fault. cbn. now rewrite Hf.
Qed.

(** X19: on a store that serves the requests, after [remove_tile] both
    [is_cached] and [load_tile] on a fresh tile with the same coordinate
    answer [False]. *)
Theorem remove_then_missing self wm t t' w c :
  coord t = Some c -> coord t' = Some c -> source t' = None ->
  boto w = true -> faults (s3 w) = [] ->
  let after := env (snd (remove_tile locate self (mkState t w))) in
  fst (is_cached locate self (mkState t' after)) = Return false /\
  fst (load_tile locate self wm (mkState t' after)) = Return false.
Proof.
  intros Hc Hc' Hs' Hb Hf. cbv zeta.
  destruct (remove_tile_served locate self t w c Hc Hb Hf)
    as (_ & _ & Hb1 & Hf1 & _ & Hobj).
  set (w1 := env (snd (remove_tile locate self (mkState t w)))) in *.
  assert (Hnone : objects (s3 w1)
                    !! (bucket_name (bucket self),
                        locate c (directory_layout self) (file_ext self)) = None).
  { rewrite Hobj. apply lookup_delete_eq. }
  split.
  - rewrite (is_cached_missing _ _ _ _ Hc' Hs' Hb1).
    rewrite (exists_served _ _ (exhausted_next_fault _ Hf1)).
    unfold key_name. cbn [key_bucket name default id fst].
    rewrite Hnone. reflexivity.
  - exact (load_tile_no_such_key locate self wm t' w1 c Hc' Hs' Hb1
             (exhausted_next_fault _ Hf1) Hnone).
Qed.

(** X20: [remove_tile] does not clear the stored flag: after [store_tile],
    [remove_tile] and [store_tile] again on the same tile, all served, the
    second [store_tile] has sent nothing, the tile is still marked stored
    and the store holds no object under its key. *)
Theorem store_remove_store_leaves_no_object self t w c img :
  stored t = false -> coord t = Some c -> source t = Some img ->
  boto w = true -> faults (s3 w) = [] ->
  let put := store_tile locate self (mkState t w) in
  let removed := remove_tile locate self (snd put) in
  let again := store_tile locate self (snd removed) in
  fst put = Return tt /\ fst removed = Return tt /\ fst again = Return tt /\
  snd again = snd removed /\
  stored (tile (snd again)) = true /\
  objects (s3 (env (snd again)))
    !! (bucket_name (bucket self),
        locate c (directory_layout self) (file_ext self)) = None.
Proof.
  intros Hst Hc Hs Hb Hf. cbv zeta.
  rewrite (store_tile_upload _ _ _ _ _ _ Hst Hc Hs Hb).
  rewrite (set_contents_served _ _ _ (exhausted_next_fault _ Hf)).
  cbn [fst snd]. set (w1 := set_s3 _ _).
  assert (Hb1 : boto w1 = true) by exact Hb.
  assert (Hf1 : faults (s3 w1) = []).
  { subst w1. cbn. now rewrite Hf. }
  set (t1 := set_stored true _).
  assert (Hc1 : coord t1 = Some c) by exact Hc.
  destruct (remove_tile_served locate self t1 w1 c Hc1 Hb1 Hf1)
    as (Ho & Ht & _ & _ & _ & Hobj).
  destruct (remove_tile locate self _) as [o2 [t2 w2]].
  cbn [fst snd tile env] in *. subst t2.
  rewrite (store_tile_already_stored locate self
             (set_location (locate c (directory_layout self) (file_ext self)) t1)
             w2 eq_refl).
  cbn [fst snd tile env].
  repeat split; try assumption.
  rewrite Hobj. apply lookup_delete_eq.
Qed.

End MoreOperationProperties.

(** ** The further properties on the scenario *)

(** Connecting with the configured profile ["prod"]. *)
Lemma connect_named_profile_witness :
  boto (Scenario.world []) = true /\
  "prod" ∈ profiles (Scenario.world []) /\
  connect (Some "prod") (Scenario.world [])
    = (Return (mkConnection (Some "prod") S3_HOST), Scenario.world []).
Proof.
  assert (Hin : "prod" ∈ profiles (Scenario.world [])).
  { unfold Scenario.world. cbn [profiles]. now apply elem_of_singleton_2. }
  split; [reflexivity|]. split; [exact Hin|].
  exact (proj1 (connect_named_profile "prod" (Scenario.world []) eq_refl) Hin).
Defined.

(** Construction against the bucket ["maps"], which the service has. *)
Lemma S3Cache_init_success_witness :
  (boto (Scenario.world []) = true /\
   ambient_credentials (Scenario.world []) = true /\
   next_fault (s3 (Scenario.world [])) = None /\
   "maps" ∈ buckets (s3 (Scenario.world []))) /\
  S3Cache_init "/var/cache/tiles" "png" None "tms" 60 "maps" None
    (Scenario.world [])
  = (Return Scenario.cache,
     set_s3 (received (HEAD_BUCKET "maps")) (Scenario.world [])).
Proof.
  assert (Hin : "maps" ∈ buckets (s3 (Scenario.world []))).
  { unfold Scenario.world, Scenario.service. cbn [s3 buckets].
    now apply elem_of_singleton_2. }
  split; [repeat split; exact Hin|].
  exact (S3Cache_init_success "/var/cache/tiles" "png" None 60 "maps"
           None (Scenario.world []) eq_refl eq_refl eq_refl Hin).
Defined.

(** Construction with the configured profile and no ambient credentials. *)
Lemma S3Cache_init_without_credentials_witness :
  (boto Scenario.world_without_credentials = true /\
   ambient_credentials Scenario.world_without_credentials = false) /\
  exists msg,
    S3Cache_init "/var/cache/tiles" "png" None "tms" 60 "maps" (Some "prod")
      Scenario.world_without_credentials
    = (Raise (S3ConnectionError ("Error during connection " +:+ msg)),
       Scenario.world_without_credentials).
Proof.
  split; [split; reflexivity|].
  exact (S3Cache_init_without_credentials "/var/cache/tiles" "png" None "tms"
           60 "maps" (Some "prod") Scenario.world_without_credentials
           eq_refl eq_refl).
Defined.

(** A permission-denied answer to the existence check. *)
Lemma is_cached_failure_propagates_witness :
  (is_missing Scenario.fresh_tile = true /\
   boto (Scenario.world [Some Scenario.access_denied]) = true /\
   next_fault (s3 (Scenario.world [Some Scenario.access_denied]))
     = Some Scenario.access_denied) /\
  fst (is_cached Scenario.locate Scenario.cache
         (mkState Scenario.fresh_tile
            (Scenario.world [Some Scenario.access_denied])))
    = Raise Scenario.access_denied /\
  exists c,
    coord Scenario.fresh_tile = Some c /\
    tile (snd (is_cached Scenario.locate Scenario.cache
                 (mkState Scenario.fresh_tile
                    (Scenario.world [Some Scenario.access_denied]))))
    = set_location
        (Scenario.locate c (directory_layout Scenario.cache)
           (file_ext Scenario.cache))
        Scenario.fresh_tile.
Proof.
  split; [repeat split|].
  exact (is_cached_failure_propagates Scenario.locate Scenario.cache
           Scenario.fresh_tile
           (Scenario.world [Some Scenario.access_denied])
           Scenario.access_denied eq_refl eq_refl eq_refl).
Defined.

(** A hit on the stocked store. *)
Lemma load_tile_true_not_missing_witness :
  load_tile Scenario.locate Scenario.cache false
    (mkState Scenario.fresh_tile (Scenario.stocked_world []))
  = (Return true,
     snd (load_tile Scenario.locate Scenario.cache false
            (mkState Scenario.fresh_tile (Scenario.stocked_world [])))) /\
  is_missing (tile (snd (load_tile Scenario.locate Scenario.cache false
            (mkState Scenario.fresh_tile (Scenario.stocked_world [])))))
  = false.
Proof.
  assert (H : load_tile Scenario.locate Scenario.cache false
                (mkState Scenario.fresh_tile (Scenario.stocked_world []))
              = (Return true,
                 snd (load_tile Scenario.locate Scenario.cache false
                        (mkState Scenario.fresh_tile (Scenario.stocked_world [])))))
    by (vm_compute; reflexivity).
  split; [exact H|].
  exact (load_tile_true_not_missing Scenario.locate Scenario.cache false
           _ _ H).
Defined.

(** A fetch that times out. *)
Lemma load_tile_transport_failure_witness :
  (coord Scenario.fresh_tile = Some Scenario.c342 /\
   source Scenario.fresh_tile = None /\
   boto (Scenario.world [Some Scenario.timed_out]) = true /\
   next_fault (s3 (Scenario.world [Some Scenario.timed_out]))
     = Some Scenario.timed_out /\
   is_S3ResponseError Scenario.timed_out = false) /\
  fst (load_tile Scenario.locate Scenario.cache false
         (mkState Scenario.fresh_tile (Scenario.world [Some Scenario.timed_out])))
    = Raise Scenario.timed_out /\
  tile (snd (load_tile Scenario.locate Scenario.cache false
         (mkState Scenario.fresh_tile (Scenario.world [Some Scenario.timed_out]))))
    = set_location "tms/2/3/4.png" Scenario.fresh_tile.
Proof.
  split; [repeat split|].
  exact (load_tile_transport_failure Scenario.locate Scenario.cache false
           Scenario.fresh_tile (Scenario.world [Some Scenario.timed_out])
           Scenario.c342 Scenario.timed_out
           eq_refl eq_refl eq_refl eq_refl eq_refl).
Defined.

(** The upload of the scenario's image. *)
Lemma store_tile_writes_only_its_key_witness :
  (stored Scenario.image_tile = false /\
   coord Scenario.image_tile = Some Scenario.c342 /\
   source Scenario.image_tile = Some (mkImageSource Scenario.tiledata) /\
   boto (Scenario.world []) = true /\
   next_fault (s3 (Scenario.world [])) = None) /\
  exists ct,
    objects (s3 (env (snd (store_tile Scenario.locate Scenario.cache
                             (mkState Scenario.image_tile (Scenario.world []))))))
      !! ("maps", "tms/2/3/4.png")
    = Some (mkS3Object Scenario.tiledata ct).
Proof.
  split; [repeat split|].
  exact (proj1 (store_tile_writes_only_its_key Scenario.locate Scenario.cache
                  Scenario.image_tile (Scenario.world []) Scenario.c342
                  (mkImageSource Scenario.tiledata)
                  eq_refl eq_refl eq_refl eq_refl eq_refl)).
Defined.

(** Storing the scenario's image twice. *)
Lemma store_tile_twice_uploads_once_witness :
  (stored Scenario.image_tile = false /\
   coord Scenario.image_tile = Some Scenario.c342 /\
   source Scenario.image_tile = Some (mkImageSource Scenario.tiledata) /\
   boto (Scenario.world []) = true /\
   next_fault (s3 (Scenario.world [])) = None) /\
  store_tile Scenario.locate Scenario.cache
    (snd (store_tile Scenario.locate Scenario.cache
            (mkState Scenario.image_tile (Scenario.world []))))
  = (Return tt,
     snd (store_tile Scenario.locate Scenario.cache
            (mkState Scenario.image_tile (Scenario.world [])))).
Proof.
  split; [repeat split|].
  exact (store_tile_twice_uploads_once Scenario.locate Scenario.cache
           Scenario.image_tile (Scenario.world []) Scenario.c342
           (mkImageSource Scenario.tiledata)
           eq_refl eq_refl eq_refl eq_refl eq_refl).
Defined.

(** An upload that times out once and is then repeated. *)
Lemma store_tile_retry_after_failure_witness :
  (stored Scenario.image_tile = false /\
   coord Scenario.image_tile = Some Scenario.c342 /\
   source Scenario.image_tile = Some (mkImageSource Scenario.tiledata) /\
   boto (Scenario.world [Some Scenario.timed_out]) = true /\
   faults (s3 (Scenario.world [Some Scenario.timed_out]))
     = [Some Scenario.timed_out]) /\
  fst (store_tile Scenario.locate Scenario.cache
         (mkState Scenario.image_tile (Scenario.world [Some Scenario.timed_out])))
    = Raise Scenario.timed_out /\
  tile (snd (store_tile Scenario.locate Scenario.cache
         (mkState Scenario.image_tile (Scenario.world [Some Scenario.timed_out]))))
    = set_location "tms/2/3/4.png" Scenario.image_tile /\
  fst (store_tile Scenario.locate Scenario.cache
         (snd (store_tile Scenario.locate Scenario.cache
                 (mkState Scenario.image_tile
                    (Scenario.world [Some Scenario.timed_out])))))
    = Return tt.
Proof.
  split; [repeat split|].
  destruct (store_tile_retry_after_failure Scenario.locate Scenario.cache
              Scenario.image_tile (Scenario.world [Some Scenario.timed_out])
              Scenario.c342 (mkImageSource Scenario.tiledata)
              Scenario.timed_out
              eq_refl eq_refl eq_refl eq_refl eq_refl)
    as (H1 & Ht & _ & H2 & _).
  split; [exact H1|]. split; [exact Ht|exact H2].
Defined.

(** The image is cached once it has been stored. *)
Lemma store_then_is_cached_witness :
  (stored Scenario.image_tile = false /\
   coord Scenario.image_tile = Some Scenario.c342 /\
   source Scenario.image_tile = Some (mkImageSource Scenario.tiledata) /\
   coord Scenario.fresh_tile = Some Scenario.c342 /\
   source Scenario.fresh_tile = None /\
   boto (Scenario.world []) = true /\
   faults (s3 (Scenario.world [])) = []) /\
  fst (is_cached Scenario.locate Scenario.cache
         (mkState Scenario.fresh_tile
            (env (snd (store_tile Scenario.locate Scenario.cache
                         (mkState Scenario.image_tile (Scenario.world [])))))))
    = Return true.
Proof.
  split; [repeat split|].
  exact (store_then_is_cached Scenario.locate Scenario.cache
           Scenario.image_tile Scenario.fresh_tile (Scenario.world [])
           Scenario.c342 (mkImageSource Scenario.tiledata)
           eq_refl eq_refl eq_refl eq_refl eq_refl eq_refl eq_refl).
Defined.

(** Removing the image from the stocked store. *)
Lemma remove_tile_deletes_only_its_key_witness :
  (coord Scenario.fresh_tile = Some Scenario.c342 /\
   boto (Scenario.stocked_world []) = true /\
   faults (s3 (Scenario.stocked_world [])) = []) /\
  objects (s3 (env (snd (remove_tile Scenario.locate Scenario.cache
                           (mkState Scenario.fresh_tile
                              (Scenario.stocked_world []))))))
    !! ("maps", "tms/2/3/4.png") = None.
Proof.
  split; [repeat split|].
  exact (proj1 (remove_tile_deletes_only_its_key Scenario.locate Scenario.cache
                  Scenario.fresh_tile (Scenario.stocked_world [])
                  Scenario.c342 eq_refl eq_refl eq_refl)).
Defined.

(** The requests of a removal from the stocked store. *)
Lemma remove_tile_requests_witness :
  (coord Scenario.fresh_tile = Some Scenario.c342 /\
   boto (Scenario.stocked_world []) = true /\
   faults (s3 (Scenario.stocked_world [])) = []) /\
  log (s3 (env (snd (remove_tile Scenario.locate Scenario.cache
                       (mkState Scenario.fresh_tile
                          (Scenario.stocked_world []))))))
    = [DELETE "maps" "tms/2/3/4.png"; HEAD "maps" "tms/2/3/4.png"].
Proof.
  split; [repeat split|].
  exact (remove_tile_requests Scenario.locate Scenario.cache
           Scenario.fresh_tile (Scenario.stocked_world [])
           Scenario.c342 eq_refl eq_refl eq_refl).
Defined.

(** A removal whose existence check is denied. *)
Lemma remove_tile_check_failure_witness :
  (coord Scenario.fresh_tile = Some Scenario.c342 /\
   boto (Scenario.stocked_world [Some Scenario.access_denied]) = true /\
   next_fault (s3 (Scenario.stocked_world [Some Scenario.access_denied]))
     = Some Scenario.access_denied) /\
  fst (remove_tile Scenario.locate Scenario.cache
         (mkState Scenario.fresh_tile
            (Scenario.stocked_world [Some Scenario.access_denied])))
    = Raise Scenario.access_denied /\
  objects (s3 (env (snd (remove_tile Scenario.locate Scenario.cache
         (mkState Scenario.fresh_tile
            (Scenario.stocked_world [Some Scenario.access_denied]))))))
    = objects (s3 (Scenario.stocked_world [Some Scenario.access_denied])).
Proof.
  split; [repeat split|].
  destruct (remove_tile_check_failure Scenario.locate Scenario.cache
              Scenario.fresh_tile
              (Scenario.stocked_world [Some Scenario.access_denied])
              Scenario.c342 Scenario.access_denied
              eq_refl eq_refl eq_refl) as (H1 & H2 & _).
  split; [exact H1|exact H2].
Defined.

(** A removal whose deletion times out. *)
Lemma remove_tile_delete_failure_witness :
  (coord Scenario.fresh_tile = Some Scenario.c342 /\
   boto (Scenario.stocked_world [None; Some Scenario.timed_out]) = true /\
   faults (s3 (Scenario.stocked_world [None; Some Scenario.timed_out]))
     = [None; Some Scenario.timed_out] /\
   objects (s3 (Scenario.stocked_world [None; Some Scenario.timed_out]))
     !! ("maps", "tms/2/3/4.png")
   = Some (mkS3Object Scenario.tiledata (Some "image/png"))) /\
  fst (remove_tile Scenario.locate Scenario.cache
         (mkState Scenario.fresh_tile
            (Scenario.stocked_world [None; Some Scenario.timed_out])))
    = Raise Scenario.timed_out /\
  objects (s3 (env (snd (remove_tile Scenario.locate Scenario.cache
         (mkState Scenario.fresh_tile
            (Scenario.stocked_world [None; Some Scenario.timed_out]))))))
    = objects (s3 (Scenario.stocked_world [None; Some Scenario.timed_out])).
Proof.
  split; [repeat split|].
  exact (remove_tile_delete_failure Scenario.locate Scenario.cache
           Scenario.fresh_tile
           (Scenario.stocked_world [None; Some Scenario.timed_out])
           Scenario.c342 Scenario.timed_out []
           (mkS3Object Scenario.tiledata (Some "image/png"))
           eq_refl eq_refl eq_refl eq_refl).
Defined.

(** After the removal from the stocked store the tile is a miss. *)
Lemma remove_then_missing_witness :
  (coord Scenario.fresh_tile = Some Scenario.c342 /\
   source Scenario.fresh_tile = None /\
   boto (Scenario.stocked_world []) = true /\
   faults (s3 (Scenario.stocked_world [])) = []) /\
  fst (is_cached Scenario.locate Scenario.cache
         (mkState Scenario.fresh_tile
            (env (snd (remove_tile Scenario.locate Scenario.cache
                         (mkState Scenario.fresh_tile
                            (Scenario.stocked_world [])))))))
    = Return false /\
  fst (load_tile Scenario.locate Scenario.cache false
         (mkState Scenario.fresh_tile
            (env (snd (remove_tile Scenario.locate Scenario.cache
                         (mkState Scenario.fresh_tile
                            (Scenario.stocked_world [])))))))
    = Return false.
Proof.
  split; [repeat split|].
  exact (remove_then_missing Scenario.locate Scenario.cache false
           Scenario.fresh_tile Scenario.fresh_tile (Scenario.stocked_world [])
           Scenario.c342 eq_refl eq_refl eq_refl eq_refl eq_refl).
Defined.

(** Store, remove and store again on the scenario's image tile. *)
Lemma store_remove_store_leaves_no_object_witness :
  (stored Scenario.image_tile = false /\
   coord Scenario.image_tile = Some Scenario.c342 /\
   source Scenario.image_tile = Some (mkImageSource Scenario.tiledata) /\
   boto (Scenario.world []) = true /\
   faults (s3 (Scenario.world [])) = []) /\
  objects (s3 (env (snd
    (store_tile Scenario.locate Scenario.cache
       (snd (remove_tile Scenario.locate Scenario.cache
               (snd (store_tile Scenario.locate Scenario.cache
                       (mkState Scenario.image_tile (Scenario.world []))))))))))
    !! ("maps", "tms/2/3/4.png") = None.
Proof.
  split; [repeat split|].
  destruct (store_remove_store_leaves_no_object Scenario.locate Scenario.cache
              Scenario.image_tile (Scenario.world []) Scenario.c342
              (mkImageSource Scenario.tiledata)
              eq_refl eq_refl eq_refl eq_refl eq_refl)
    as (_ & _ & _ & _ & _ & H).
  exact H.
Defined.
